(** * Nonprofit platform: the FAQ responder and the CSV upload handler

    A shallow embedding of [src/app.py] (the rule-based dashboard) and
    [src/AI_app.py] (the same dashboard with a generative fallback), and the
    properties of the answer function [get_chatbot_answer], of
    [generate_ai_response] and of the upload handler of the second tab. *)

From Stdlib Require Import NArith Ascii String DecimalString QArith.
From stdpp Require Import base option list gmap.

Local Open Scope N_scope.

(** ** Python strings

    A Python [str] is a sequence of Unicode code points.  [len], slicing and
    the [in] operator all count code points, so that is what the model keeps. *)

Module Py.

Definition str := list N.

(** String literals of the sources are written as Rocq literals, which hold
    the UTF-8 bytes of the source file, and decoded to code points. *)
Fixpoint utf8_go (need : nat) (acc : N) (bs : list N) : str :=
  match bs with
  | [] => []
  | b :: rest =>
      match need with
      | O =>
          if b <? 128 then b :: utf8_go 0 0 rest
          else if b <? 224 then utf8_go 1 (N.land b 31) rest
          else if b <? 240 then utf8_go 2 (N.land b 15) rest
          else utf8_go 3 (N.land b 7) rest
      | S O => (acc * 64 + N.land b 63) :: utf8_go 0 0 rest
      | S n => utf8_go n (acc * 64 + N.land b 63) rest
      end
  end.

Definition lit (s : string) : str :=
  utf8_go 0 0 (map N_of_ascii (list_ascii_of_string s)).
Arguments lit : simpl never.

(** [str.lower()].  CPython lowers code point by code point: an ASCII letter
    [A-Z] becomes [a-z], every other ASCII code point is kept.  A code point
    outside ASCII is looked up in the Unicode character database, which may
    give up to three code points and, for capital sigma, inspects the
    surrounding text.  The database is not part of the repository: it is an
    interface, with the one fact about it that the properties below use
    (white space has no case). *)
Definition is_upper_ascii (c : N) : bool := (65 <=? c) && (c <=? 90).

Definition ascii_lower (c : N) : N := if is_upper_ascii c then c + 32 else c.

(** [str.isspace] / the characters removed by [str.strip()]
    (Py_UNICODE_ISSPACE). *)
Definition is_space (c : N) : bool :=
  ((9 <=? c) && (c <=? 13)) || ((28 <=? c) && (c <=? 32))
  || (c =? 133) || (c =? 160) || (c =? 5760)
  || ((8192 <=? c) && (c <=? 8202))
  || (c =? 8232) || (c =? 8233) || (c =? 8239) || (c =? 8287) || (c =? 12288).

Class UnicodeData := {
  (** [tolower_full before c after]: the lower-case mapping of the non-ASCII
      code point [c]; [before] is the text to its left, nearest first, and
      [after] the text to its right. *)
  tolower_full : str -> N -> str -> str;
  tolower_space : forall before c after,
      is_space c = true -> tolower_full before c after = [c]
}.

Section Lower.
Context `{UnicodeData}.

Fixpoint lower_from (before : str) (s : str) : str :=
  match s with
  | [] => []
  | c :: rest =>
      (if c <? 128 then [ascii_lower c] else tolower_full before c rest)
      ++ lower_from (c :: before) rest
  end.

Definition lower (s : str) : str := lower_from [] s.
End Lower.

(** [needle in haystack]: substring test. *)
Fixpoint startswith (s prefix : str) : bool :=
  match prefix, s with
  | [], _ => true
  | _ :: _, [] => false
  | p :: prefix', c :: s' => (p =? c) && startswith s' prefix'
  end.

Fixpoint contains (needle haystack : str) : bool :=
  startswith haystack needle
  || match haystack with
     | [] => false
     | _ :: rest => contains needle rest
     end.

(** [s.strip()] *)
Fixpoint lstrip (s : str) : str :=
  match s with
  | [] => []
  | c :: rest => if is_space c then lstrip rest else s
  end.

Definition rstrip (s : str) : str := rev (lstrip (rev s)).

Definition strip (s : str) : str := rstrip (lstrip s).

(** Truthiness of a string: [if s:] holds for the non-empty ones. *)
Definition truthy (s : str) : bool :=
  match s with [] => false | _ :: _ => true end.

(** The keyword occurs in the text in some letter case: a substring of the
    text spells the keyword once its ASCII capitals are lowered. *)
Fixpoint startswith_nocase (s keyword : str) : bool :=
  match keyword, s with
  | [], _ => true
  | _ :: _, [] => false
  | k :: keyword', c :: s' => (k =? ascii_lower c) && startswith_nocase s' keyword'
  end.

Fixpoint contains_nocase (keyword text : str) : bool :=
  startswith_nocase text keyword
  || match text with
     | [] => false
     | _ :: rest => contains_nocase keyword rest
     end.

(** A database under which only ASCII has case; enough to run the model. *)
Definition ascii_only : UnicodeData :=
  {| tolower_full := fun _ c _ => [c];
     tolower_space := fun _ _ _ _ => eq_refl |}.

(** [str(n)] for a non-negative integer. *)
Definition str_of_nat (n : nat) : str :=
  lit (NilEmpty.string_of_uint (Nat.to_uint n)).

End Py.

Import Py.

(** Literals are compared as they are written and decoded only on demand. *)
Opaque lit.


(** ** Exceptions and effects

    A computation runs on a state, may change it, and either returns a value
    or raises.  What was done to the state before an exception stays done.
    The exceptions modelled are the instances of Python's [Exception], which
    is what the [except Exception] clauses of the sources catch. *)

Inductive exception := Exception (message : str).

Definition exc_text (e : exception) : str :=
  match e with Exception m => m end.

Inductive res (A : Type) := Ret (a : A) | Raise (e : exception).
Arguments Ret {A} a.
Arguments Raise {A} e.

Definition M (S A : Type) : Type := S -> res A * S.

Definition ret {S A} (a : A) : M S A := fun s => (Ret a, s).

Definition raise {S A} (e : exception) : M S A := fun s => (Raise e, s).

Definition bind {S A B} (m : M S A) (k : A -> M S B) : M S B :=
  fun s =>
    match m s with
    | (Ret a, s') => k a s'
    | (Raise e, s') => (Raise e, s')
    end.

(** [try: body / except Exception as e: handler] *)
Definition try_except {S A} (body : M S A) (handler : exception -> M S A) : M S A :=
  fun s =>
    match body s with
    | (Ret a, s') => (Ret a, s')
    | (Raise e, s') => handler e s'
    end.

Declare Scope py_scope.
Delimit Scope py_scope with py.
Notation "x <- m ;; k" := (bind m (fun x => k))
  (at level 100, m at next level, right associativity) : py_scope.
Notation "m ;; k" := (bind m (fun _ => k))
  (at level 100, right associativity) : py_scope.

(** ** Categories and first-match classification, as the specification words it *)

Inductive Category :=
  Hours | Volunteer | Donate | Programs | Contact | Emergency | Unmatched.

#[export] Instance Category_eq_dec : EqDecision Category.
Proof. solve_decision. Defined.

(** Some keyword of the set is a substring of the text. *)
Definition matches (keywords : list str) (text : str) : bool :=
  existsb (fun kw => contains kw text) keywords.

(** The first category of the ordered table whose keyword set matches;
    [Unmatched] when none does. *)
Fixpoint first_match (table : list (Category * list str)) (text : str) : Category :=
  match table with
  | [] => Unmatched
  | (c, keywords) :: rest =>
      if matches keywords text then c else first_match rest text
  end.

(** A category wins on a text when its keyword set matches and no earlier
    set of the table does; [Unmatched] wins when no set matches. *)
Definition wins (table : list (Category * list str)) (c : Category) (text : str) : Prop :=
  (exists earlier keywords later,
      table = earlier ++ (c, keywords) :: later
      /\ matches keywords text = true
      /\ Forall (fun entry => matches (snd entry) text = false) earlier)
  \/ (c = Unmatched /\ Forall (fun entry => matches (snd entry) text = false) table).

(** ** pandas and Streamlit, as far as the second tab uses them *)

Record DataFrame := {
  columns : list str;
  rows : list (list (option str))       (* [None] is a missing value *)
}.

Definition df_len (d : DataFrame) : nat := length (rows d).

Definition df_head (n : nat) (d : DataFrame) : DataFrame :=
  {| columns := columns d; rows := take n (rows d) |}.

(** [data.isnull().sum().sum()] *)
Definition df_missing (d : DataFrame) : nat :=
  length (filter (fun cell => cell = None) (concat (rows d))).

Record UploadedFile := { content : list N; size : N }.

(** [pd.read_csv]: the parser is pandas', not the repository's. *)
Class Pandas := read_csv : UploadedFile -> res DataFrame.

Module St.

(** The value shown by [st.metric]. *)
Inductive value :=
| Text (s : str)
| Count (n : nat)               (* an [int] *)
| Grouped (n : nat)             (* [f"{n:,}"] *)
| Kilobytes (bytes : N).        (* [f"{bytes / 1024:.1f} KB"] *)

Inductive widget :=
| success (body : str)
| error (body : str)
| info (body : str)
| warning (body : str)
| write (body : str)
| markdown (body : str)
| dataframe (d : DataFrame)
| table (d : DataFrame)
| metric (label : str) (v : value)
(** The completeness line of the quality assessment: the percentage
    [(cells - missing) / cells * 100] is a NumPy float (not-a-number when
    there are no cells, without raising), and which of [st.success],
    [st.info] and [st.warning] shows it is decided by float comparisons; the
    model keeps the two integers. *)
| completeness (cells missing : nat).

(** One run of the script: the session state and the widgets rendered. *)
Record script := {
  session_state : gmap str DataFrame;
  page : list widget
}.

Definition show (w : widget) : M script unit :=
  fun s => (Ret tt, {| session_state := session_state s; page := page s ++ [w] |}).

(** [st.session_state[key] = d] *)
Definition session_set (key : str) (d : DataFrame) : M script unit :=
  fun s => (Ret tt, {| session_state := <[key := d]> (session_state s); page := page s |}).

(** A pure computation that may raise, run inside a script. *)
Definition lift {A} (r : res A) : M script A := fun s => (r, s).

End St.

Local Open Scope py_scope.

(** The table of the expected format, shown by both dashboards. *)
Definition sample_data : DataFrame :=
  {| columns := [lit "Name"; lit "Age"; lit "Program"; lit "Status"];
     rows :=
       [ [Some (lit "John Smith"); Some (lit "25"); Some (lit "Job Training"); Some (lit "Active")];
         [Some (lit "Sarah Jones"); Some (lit "34"); Some (lit "Youth Mentoring"); Some (lit "Completed")];
         [Some (lit "Mike Davis"); Some (lit "19"); Some (lit "Food Assistance"); Some (lit "Active")] ] |}.

(** ** [src/app.py] *)

Module App.
Section App.
Context `{UnicodeData} `{Pandas}.

(** [get_chatbot_answer], lines 15-32. *)
Definition get_chatbot_answer (question : str) : str :=
  let question := lower question in
  if contains (lit "hours") question || contains (lit "time") question then
    lit "We're open Monday-Friday 9 AM to 6 PM, Saturday 10 AM to 4 PM"
  else if contains (lit "volunteer") question then
    lit "We'd love your help! We need volunteers for tutoring, food service, and events. Visit our website to apply!"
  else if contains (lit "donate") question then
    lit "Thank you! You can donate online, by phone (555-123-4567), or visit our office at 123 Community St."
  else if contains (lit "programs") question || contains (lit "services") question then
    lit "We offer youth mentoring, job training, food assistance, and housing support. Which interests you?"
  else
    lit "Thanks for asking about '" ++ question
      ++ lit "'. Try asking about our hours, volunteer opportunities, donations, or programs!".

(** The data-upload tab, lines 63-95. *)
Definition upload_tab (uploaded_file : option UploadedFile) : M St.script unit :=
  match uploaded_file with
  | Some file =>
      try_except
        (data <- St.lift (read_csv file) ;;
         St.show (St.success (lit "✅ File uploaded! It has " ++ str_of_nat (df_len data)
                                ++ lit " rows and " ++ str_of_nat (length (columns data))
                                ++ lit " columns")) ;;
         St.show (St.write (lit "**Here's a preview of your data:**")) ;;
         St.show (St.dataframe (df_head 5 data)) ;;
         St.session_set (lit "data") data)
        (fun e =>
           St.show (St.error (lit "Oops! There was a problem reading your file: " ++ exc_text e)))
  | None =>
      St.show (St.info (lit "👆 Upload a CSV file to see your data here")) ;;
      St.show (St.write (lit "**Expected format example:**")) ;;
      St.show (St.table sample_data)
  end.
End App.

(** The answer function as a table: the four templates and the reply of the
    [else] branch, which quotes the lowered question. *)
Definition keyword_table : list (Category * list str) :=
  [ (Hours, [lit "hours"; lit "time"]);
    (Volunteer, [lit "volunteer"]);
    (Donate, [lit "donate"]);
    (Programs, [lit "programs"; lit "services"]) ].

Definition hours_template : str :=
  lit "We're open Monday-Friday 9 AM to 6 PM, Saturday 10 AM to 4 PM".
Definition volunteer_template : str :=
  lit "We'd love your help! We need volunteers for tutoring, food service, and events. Visit our website to apply!".
Definition donate_template : str :=
  lit "Thank you! You can donate online, by phone (555-123-4567), or visit our office at 123 Community St.".
Definition programs_template : str :=
  lit "We offer youth mentoring, job training, food assistance, and housing support. Which interests you?".

Definition unmatched_reply (lowered : str) : str :=
  lit "Thanks for asking about '" ++ lowered
    ++ lit "'. Try asking about our hours, volunteer opportunities, donations, or programs!".

(** The category an answer stands for: each template stands for its own
    category, any other text for [Unmatched]. *)
Definition category_of (answer : str) : Category :=
  if decide (answer = hours_template) then Hours
  else if decide (answer = volunteer_template) then Volunteer
  else if decide (answer = donate_template) then Donate
  else if decide (answer = programs_template) then Programs
  else Unmatched.


End App.

(** ** [src/AI_app.py] *)

Module AIApp.

(** *** The generative backend

    The tokenizer and the model are Hugging Face objects.  Each of their
    calls may raise, and each runs on state of their own (sampling is on, so
    at least a random generator), which the model keeps as a hidden state
    [W].  Every call is also logged with its arguments and its outcome. *)

Definition tokens := list N.

(** The keyword arguments of [model.generate]. *)
Record GenerationConfig := {
  max_length : nat;
  num_return_sequences : nat;
  temperature : Q;
  do_sample : bool;
  pad_token_id : option N
}.

Inductive event :=
| Encoded (text : str) (result : res tokens)
| Generated (inputs : tokens) (config : GenerationConfig) (result : res (list tokens))
| Decoded (ids : tokens) (result : res str).

Section Backend.
Variable W : Type.

Record world := { hidden : W; trace : list event }.

Record Tokenizer := {
  eos_token : option str;
  eos_token_id : option N;
  encode : str -> W -> res tokens * W;
  (** [decode(ids, skip_special_tokens=True)] *)
  decode : tokens -> W -> res str * W
}.

Record Model := {
  generate : tokens -> GenerationConfig -> W -> res (list tokens) * W
}.

(** The dictionary returned by [load_ai_model]. *)
Record AiModel := { model : Model; tokenizer : Tokenizer }.

(** The two module-level names the answer function reads. *)
Record Globals := { HF_AVAILABLE : bool; ai_model : option AiModel }.

Definition call {A} (f : W -> res A * W) (log : res A -> event) : M world A :=
  fun w =>
    let (r, h) := f (hidden w) in
    (r, {| hidden := h; trace := trace w ++ [log r] |}).

Context `{UnicodeData} (g : Globals).

(** The keyword arguments passed to [model.generate], lines 163-168;
    [inputs.shape[1]] is the number of input tokens. *)
Definition generate_kwargs (inputs : tokens) (tokenizer : Tokenizer) : GenerationConfig :=
  {| max_length := length inputs + 50;
     num_return_sequences := 1;
     temperature := 7 # 10;
     do_sample := true;
     pad_token_id := eos_token_id tokenizer |}.

Definition nonprofit_context : str :=
  lit "You are a helpful assistant for a nonprofit organization that provides community services including youth mentoring, job training, food assistance, housing support, and emergency services. ".

(** [generate_ai_response], lines 144-184. *)
Definition generate_ai_response (question : str) : M world (option str) :=
  if negb (bool_decide (is_Some (ai_model g))) || negb (HF_AVAILABLE g) then ret None
  else
    try_except
      (ai <- match ai_model g with
             | Some ai => ret ai
             | None => raise (Exception (lit "'NoneType' object is not subscriptable"))
             end ;;
       let model := model ai in
       let tokenizer := tokenizer ai in
       let full_input := nonprofit_context ++ question in
       eos <- match eos_token tokenizer with
              | Some eos => ret eos
              | None => raise (Exception (lit "can only concatenate str (not 'NoneType') to str"))
              end ;;
       inputs <- call (encode tokenizer (full_input ++ eos)) (Encoded (full_input ++ eos)) ;;
       let config := generate_kwargs inputs tokenizer in
       outputs <- call (generate model inputs config) (Generated inputs config) ;;
       first <- match outputs with
                | first :: _ => ret first
                | [] => raise (Exception (lit "index 0 is out of bounds"))
                end ;;
       response <- call (decode tokenizer first) (Decoded first) ;;
       let response := strip (drop (length full_input) response) in
       let response :=
         if (200 <? length response)%nat then take 200 response ++ lit "..."
         else response in
       ret (Some response))
      (fun _ => ret None).

(** [get_chatbot_answer], lines 108-142.  The [elif] of the backend either
    returns from inside its [try] or falls out of it to the last line. *)
Definition get_chatbot_answer (question : str) : M world str :=
  let question_lower := lower question in
  if contains (lit "hours") question_lower || contains (lit "time") question_lower then
    ret (lit "🕒 **Our Hours:** Monday-Friday 9 AM to 6 PM, Saturday 10 AM to 4 PM. We're closed on Sundays and major holidays. For emergency assistance, please call our 24/7 helpline at (555) 999-HELP.")
  else if contains (lit "volunteer") question_lower then
    ret (lit "🤝 **Volunteer Opportunities:** We'd love your help! Current openings include tutoring, food service, event planning, and administrative support. Please visit our website to complete the volunteer application and background check.")
  else if contains (lit "donate") question_lower then
    ret (lit "💝 **Donations:** Thank you for your generosity! You can donate online at our secure portal, by phone (555) 123-4567, or mail checks to 123 Community St. All donations are tax-deductible!")
  else if contains (lit "programs") question_lower || contains (lit "services") question_lower then
    ret (lit "📋 **Our Programs:** Youth Mentoring (ages 12-18), Job Training, Food Assistance, Housing Support, Educational Workshops, and Senior Services. Which program would you like to learn more about?")
  else if contains (lit "contact") question_lower || contains (lit "phone") question_lower
          || contains (lit "email") question_lower then
    ret (lit "📞 **Contact Information:** Phone: (555) 123-4567 | Email: info@nonprofitcommunity.org | Address: 123 Community St, City, State 12345 | Emergency Helpline: (555) 999-HELP (24/7)")
  else if contains (lit "emergency") question_lower || contains (lit "crisis") question_lower
          || contains (lit "urgent") question_lower then
    ret (lit "🆘 **Emergency Resources:** Crisis Hotline: (555) 999-HELP (24/7) | Emergency Food: Available during office hours | Mental Health: Free counseling referrals | If this is life-threatening, please call 911.")
  else
    returned <-
      (if bool_decide (is_Some (ai_model g)) && HF_AVAILABLE g then
         try_except
           (ai_response <- generate_ai_response question ;;
            match ai_response with
            | Some ai_response =>
                if truthy ai_response && (0 <? length (strip ai_response))%nat then
                  ret (Some (lit "🤖 **AI Assistant:** " ++ ai_response ++ [10; 10]
                               ++ lit "💡 *For specific information about our programs, try asking about hours, volunteering, donations, or services.*"))
                else ret None
            | None => ret None
            end)
           (fun _ => ret None)
       else ret None) ;;
    match returned with
    | Some answer => ret answer
    | None =>
        ret (lit "Thanks for your question! I can help you with information about our **hours, volunteer opportunities, donations, programs, contact information,** and **emergency resources**. What would you like to know more about?")
    end.
End Backend.

Arguments hidden {W} _.
Arguments trace {W} _.
Arguments eos_token {W} _.
Arguments eos_token_id {W} _.
Arguments encode {W} _ _ _.
Arguments decode {W} _ _ _.
Arguments generate {W} _ _ _ _.
Arguments model {W} _.
Arguments tokenizer {W} _.
Arguments HF_AVAILABLE {W} _.
Arguments ai_model {W} _.
Arguments generate_kwargs {W} inputs tokenizer.
Arguments call {W A} f log.
Arguments generate_ai_response {W} g question.
Arguments get_chatbot_answer {W _} g question.

(** The ways a run of the backend on a question, started in the hidden state
    [h], gives no usable text: a step raises (the tokenizer has no
    end-of-sequence token to append, [encode], [generate] or [decode] raises,
    [generate] returns no sequence), or what is left after the prompt is
    blank. *)
Inductive generation_fails {W} (ai : AiModel W) (question : str) (h : W) : Prop :=
| fails_eos :
    eos_token (tokenizer ai) = None ->
    generation_fails ai question h
| fails_encode eos e h1 :
    eos_token (tokenizer ai) = Some eos ->
    encode (tokenizer ai) ((nonprofit_context ++ question) ++ eos) h = (Raise e, h1) ->
    generation_fails ai question h
| fails_generate eos inputs h1 e h2 :
    eos_token (tokenizer ai) = Some eos ->
    encode (tokenizer ai) ((nonprofit_context ++ question) ++ eos) h = (Ret inputs, h1) ->
    generate (model ai) inputs (generate_kwargs inputs (tokenizer ai)) h1 = (Raise e, h2) ->
    generation_fails ai question h
| fails_no_sequence eos inputs h1 h2 :
    eos_token (tokenizer ai) = Some eos ->
    encode (tokenizer ai) ((nonprofit_context ++ question) ++ eos) h = (Ret inputs, h1) ->
    generate (model ai) inputs (generate_kwargs inputs (tokenizer ai)) h1 = (Ret [], h2) ->
    generation_fails ai question h
| fails_decode eos inputs h1 first others h2 e h3 :
    eos_token (tokenizer ai) = Some eos ->
    encode (tokenizer ai) ((nonprofit_context ++ question) ++ eos) h = (Ret inputs, h1) ->
    generate (model ai) inputs (generate_kwargs inputs (tokenizer ai)) h1
      = (Ret (first :: others), h2) ->
    decode (tokenizer ai) first h2 = (Raise e, h3) ->
    generation_fails ai question h
| fails_blank eos inputs h1 first others h2 out h3 :
    eos_token (tokenizer ai) = Some eos ->
    encode (tokenizer ai) ((nonprofit_context ++ question) ++ eos) h = (Ret inputs, h1) ->
    generate (model ai) inputs (generate_kwargs inputs (tokenizer ai)) h1
      = (Ret (first :: others), h2) ->
    decode (tokenizer ai) first h2 = (Ret out, h3) ->
    strip (drop (length (nonprofit_context ++ question)) out) = [] ->
    generation_fails ai question h.

(** The backend calls one run of [generate_ai_response] can log: none when
    the tokenizer has no end-of-sequence token, else [encode], then
    [generate] with the keyword arguments of the source, then [decode] of the
    first sequence, stopping at the first step that fails. *)
Inductive one_run {W} (ai : AiModel W) (question : str) : list event -> Prop :=
| run_no_eos :
    eos_token (tokenizer ai) = None ->
    one_run ai question []
| run_encode_raised eos e :
    eos_token (tokenizer ai) = Some eos ->
    one_run ai question [Encoded ((nonprofit_context ++ question) ++ eos) (Raise e)]
| run_generate_raised eos inputs e :
    eos_token (tokenizer ai) = Some eos ->
    one_run ai question
      [ Encoded ((nonprofit_context ++ question) ++ eos) (Ret inputs);
        Generated inputs (generate_kwargs inputs (tokenizer ai)) (Raise e) ]
| run_no_sequence eos inputs :
    eos_token (tokenizer ai) = Some eos ->
    one_run ai question
      [ Encoded ((nonprofit_context ++ question) ++ eos) (Ret inputs);
        Generated inputs (generate_kwargs inputs (tokenizer ai)) (Ret []) ]
| run_decoded eos inputs first others result :
    eos_token (tokenizer ai) = Some eos ->
    one_run ai question
      [ Encoded ((nonprofit_context ++ question) ++ eos) (Ret inputs);
        Generated inputs (generate_kwargs inputs (tokenizer ai)) (Ret (first :: others));
        Decoded first result ].

(** The upload handler of the second tab, lines 318-371. *)
Definition upload_handler `{Pandas} (uploaded_file : option UploadedFile) : M St.script unit :=
  match uploaded_file with
  | Some file =>
      try_except
        (data <- St.lift (read_csv file) ;;
         (if (df_len data =? 0)%nat then
            St.show (St.error (lit "❌ The file appears to be empty. Please check your CSV file."))
          else ret tt) ;;
         St.show (St.success (lit "✅ **File processed successfully!**")) ;;
         St.show (St.metric (lit "📊 Rows") (St.Grouped (df_len data))) ;;
         St.show (St.metric (lit "📋 Columns") (St.Count (length (columns data)))) ;;
         St.show (St.metric (lit "💾 Size") (St.Kilobytes (size file))) ;;
         St.show (St.markdown (lit "#### 👀 Data Preview")) ;;
         St.show (St.dataframe (df_head 10 data)) ;;
         St.show (St.markdown (lit "#### 🔍 Data Quality Assessment")) ;;
         let missing_values := df_missing data in
         (if (missing_values =? 0)%nat then
            St.show (St.success (lit "✅ No missing values detected"))
          else
            St.show (St.warning (lit "⚠️ " ++ str_of_nat missing_values
                                   ++ lit " missing values found"))) ;;
         St.show (St.completeness (df_len data * length (columns data)) missing_values) ;;
         St.session_set (lit "data") data)
        (fun e =>
           St.show (St.error (lit "❌ **Error processing file:** " ++ exc_text e)) ;;
           St.show (St.info (lit "💡 **Tip:** Make sure your file is a valid CSV with proper formatting.")))
  | None => ret tt
  end.

(** *** The answer function as a table

    The six templates, the ordered keyword table and the default reply, and
    the category an answer stands for: each template stands for its own
    category, any other text for [Unmatched]. *)

Definition keyword_table : list (Category * list str) :=
  [ (Hours, [lit "hours"; lit "time"]);
    (Volunteer, [lit "volunteer"]);
    (Donate, [lit "donate"]);
    (Programs, [lit "programs"; lit "services"]);
    (Contact, [lit "contact"; lit "phone"; lit "email"]);
    (Emergency, [lit "emergency"; lit "crisis"; lit "urgent"]) ].

Definition hours_template : str :=
  lit "🕒 **Our Hours:** Monday-Friday 9 AM to 6 PM, Saturday 10 AM to 4 PM. We're closed on Sundays and major holidays. For emergency assistance, please call our 24/7 helpline at (555) 999-HELP.".
Definition volunteer_template : str :=
  lit "🤝 **Volunteer Opportunities:** We'd love your help! Current openings include tutoring, food service, event planning, and administrative support. Please visit our website to complete the volunteer application and background check.".
Definition donate_template : str :=
  lit "💝 **Donations:** Thank you for your generosity! You can donate online at our secure portal, by phone (555) 123-4567, or mail checks to 123 Community St. All donations are tax-deductible!".
Definition programs_template : str :=
  lit "📋 **Our Programs:** Youth Mentoring (ages 12-18), Job Training, Food Assistance, Housing Support, Educational Workshops, and Senior Services. Which program would you like to learn more about?".
Definition contact_template : str :=
  lit "📞 **Contact Information:** Phone: (555) 123-4567 | Email: info@nonprofitcommunity.org | Address: 123 Community St, City, State 12345 | Emergency Helpline: (555) 999-HELP (24/7)".
Definition emergency_template : str :=
  lit "🆘 **Emergency Resources:** Crisis Hotline: (555) 999-HELP (24/7) | Emergency Food: Available during office hours | Mental Health: Free counseling referrals | If this is life-threatening, please call 911.".

Definition default_response : str :=
  lit "Thanks for your question! I can help you with information about our **hours, volunteer opportunities, donations, programs, contact information,** and **emergency resources**. What would you like to know more about?".

(** The reply built around a generated text, line 136. *)
Definition ai_reply (ai_response : str) : str :=
  lit "🤖 **AI Assistant:** " ++ ai_response ++ [10; 10]
    ++ lit "💡 *For specific information about our programs, try asking about hours, volunteering, donations, or services.*".

Definition template (c : Category) : str :=
  match c with
  | Hours => hours_template
  | Volunteer => volunteer_template
  | Donate => donate_template
  | Programs => programs_template
  | Contact => contact_template
  | Emergency => emergency_template
  | Unmatched => default_response
  end.

Definition category_of (answer : str) : Category :=
  if decide (answer = hours_template) then Hours
  else if decide (answer = volunteer_template) then Volunteer
  else if decide (answer = donate_template) then Donate
  else if decide (answer = programs_template) then Programs
  else if decide (answer = contact_template) then Contact
  else if decide (answer = emergency_template) then Emergency
  else Unmatched.

(** The display cut of the generated text, lines 178-179. *)
Definition clip (response : str) : str :=
  if (200 <? length response)%nat then take 200 response ++ lit "..." else response.

(** *** Loading the model, lines 80-105 *)

(** A tokenizer as [from_pretrained] hands it out: the tokenizer the answer
    function uses, and its padding token. *)
Record PretrainedTokenizer (W : Type) := {
  pad_token : option str;
  as_tokenizer : Tokenizer W
}.
Arguments pad_token {W} _.
Arguments as_tokenizer {W} _.

(** The two loaders of the transformers library; each may raise. *)
Class Hub (W : Type) := {
  tokenizer_from_pretrained : str -> res (PretrainedTokenizer W);
  model_from_pretrained : str -> res (Model W)
}.

(** The dictionary [load_ai_model] returns. *)
Record LoadedModel (W : Type) := {
  loaded_model : Model W;
  loaded_tokenizer : PretrainedTokenizer W
}.
Arguments loaded_model {W} _.
Arguments loaded_tokenizer {W} _.

Definition as_ai_model {W} (loaded : LoadedModel W) : AiModel W :=
  {| model := loaded_model loaded;
     tokenizer := as_tokenizer (loaded_tokenizer loaded) |}.

(** One run of the body of [load_ai_model] ([st.cache_resource] keeps its
    result for later calls; the spinner shown while loading leaves nothing
    on the page).  [hf_available] is the flag set by the imports of
    lines 7-12. *)
Definition load_ai_model {W} `{Hub W} (hf_available : bool)
  : M St.script (option (LoadedModel W)) :=
  if negb hf_available then ret None
  else
    try_except
      (let model_name := lit "microsoft/DialoGPT-medium" in
       tokenizer <- St.lift (tokenizer_from_pretrained model_name) ;;
       model <- St.lift (model_from_pretrained model_name) ;;
       let tokenizer :=
         match pad_token tokenizer with
         | None =>
             {| pad_token := eos_token (as_tokenizer tokenizer);
                as_tokenizer := as_tokenizer tokenizer |}
         | Some _ => tokenizer
         end in
       ret (Some {| loaded_model := model; loaded_tokenizer := tokenizer |}))
      (fun e =>
         St.show (St.error (lit "Error loading AI model: " ++ exc_text e)) ;;
         ret None).

(** The module-level names once line 105 has run. *)
Definition module_globals {W} `{Hub W} (hf_available : bool) : M St.script (Globals W) :=
  loaded <- load_ai_model hf_available ;;
  ret {| HF_AVAILABLE := hf_available; ai_model := as_ai_model <$> loaded |}.

(** *** The chatbot tab *)

(** The answer function runs on the backend, the widgets on the page. *)
Definition on_backend {W A} (m : M (world W) A) : M (world W * St.script) A :=
  fun '(w, s) => let (r, w') := m w in (r, (w', s)).

Definition on_page {W A} (m : M St.script A) : M (world W * St.script) A :=
  fun '(w, s) => let (r, s') := m s in (r, (w, s')).

(** The status line under the title, lines 229-232. *)
Definition ai_status {W} (g : Globals W) : M St.script unit :=
  if HF_AVAILABLE g && bool_decide (is_Some (ai_model g)) then
    St.show (St.success (lit "🤖 **AI Model Active:** Enhanced conversational responses available"))
  else
    St.show (St.info (lit "🔧 **Rule-based Mode:** Install AI libraries for enhanced responses")).

(** The box the answer is shown in, lines 257-262. *)
Definition answer_box (answer : str) : str :=
  ([10] ++
   lit "                    <div style=" ++
   [34] ++
   lit "background: #f0f8ff; border-left: 4px solid #667eea; padding: 1rem; margin: 1rem 0; border-radius: 5px; color: #333333;" ++
   [34] ++
   lit ">" ++
   [10] ++
   lit "                        <strong>🤖 AI Assistant:</strong><br>" ++
   [10] ++
   lit "                        ")
  ++ answer
  ++ ([10] ++
      lit "                    </div>" ++
      [10] ++
      lit "                    ").

(** The ask button and what it does, lines 248-264: [user_question] is what
    the text box holds and [ask] whether the button was pressed. *)
Definition ask_column {W} `{UnicodeData} (g : Globals W) (user_question : str) (ask : bool)
  : M (world W * St.script) unit :=
  if ask then
    if truthy user_question then
      answer <- on_backend (get_chatbot_answer g user_question) ;;
      on_page (St.show (St.markdown (answer_box answer)))
    else
      on_page (St.show (St.warning (lit "⚠️ Please type a question first!")))
  else ret tt.

(** The status line under the suggestions, lines 296-299. *)
Definition ai_hint {W} (g : Globals W) : M St.script unit :=
  if HF_AVAILABLE g && bool_decide (is_Some (ai_model g)) then
    St.show (St.success (lit "🤖 **AI Enhanced:** Natural language understanding active!"))
  else
    St.show (St.info (lit "💡 **Tip:** Install transformers library for AI responses!")).

(** *** The sidebar, lines 187-219 *)

(** [key in st.session_state], [st.session_state[key]] *)
Definition session_lookup (key : str) : M St.script (option DataFrame) :=
  fun s => (Ret (St.session_state s !! key), s).

Definition sidebar : M St.script unit :=
  St.show (St.markdown (lit "## 🎯 Platform Features")) ;;
  St.show (St.markdown
    ([10] ++
     lit "    **💬 AI Community Support**" ++ [10] ++
     lit "    - Instant FAQ responses" ++ [10] ++
     lit "    - 24/7 availability simulation" ++ [10] ++
     lit "    - Issue categorization" ++ [10] ++
     lit "    " ++ [10] ++
     lit "    **📊 Data Management**  " ++ [10] ++
     lit "    - CSV upload & validation" ++ [10] ++
     lit "    - Automated data cleaning" ++ [10] ++
     lit "    - Quality assessments" ++ [10] ++
     lit "    " ++ [10] ++
     lit "    **📈 Analytics Dashboard**" ++ [10] ++
     lit "    - Interactive visualizations" ++ [10] ++
     lit "    - Program outcome tracking" ++ [10] ++
     lit "    - Performance metrics" ++ [10] ++
     lit "    ")) ;;
  St.show (St.markdown (lit "---")) ;;
  St.show (St.markdown (lit "### 📊 Session Statistics")) ;;
  stored <- session_lookup (lit "data") ;;
  let data_status :=
    match stored with
    | Some data => str_of_nat (df_len data) ++ lit " records loaded"
    | None => lit "No data loaded"
    end in
  St.show (St.info (lit "📄 Data: " ++ data_status)) ;;
  St.show (St.markdown (lit "---")) ;;
  St.show (St.markdown (lit "*Built with Python & Streamlit*")) ;;
  St.show (St.markdown (lit "*Designed for social impact* 💝")).

(** *** The data tab, lines 302-414 *)

Definition programs : list str :=
  [lit "Youth Mentoring"; lit "Job Training"; lit "Food Assistance"; lit "Housing Support"].

Definition statuses : list str := [lit "Active"; lit "Completed"; lit "On Hold"].

(** The dictionary appended for index [i], lines 400-407, as a row of cells
    in the order of its keys. *)
Definition sample_participant (i : nat) : list (option str) :=
  [ Some (str_of_nat (i + 1));
    Some (lit "Participant " ++ str_of_nat (i + 1));
    Some (str_of_nat (15 + (i * 3) mod 60));
    programs !! (i mod length programs)%nat;
    statuses !! (i mod length statuses)%nat;
    Some (lit "2024-0" ++ str_of_nat (i mod 9 + 1) ++ lit "-15") ]%nat.

(** [pd.DataFrame(sample_participants)] after the loop over [range(20)]. *)
Definition sample_participants : DataFrame :=
  {| columns := [lit "ID"; lit "Name"; lit "Age"; lit "Program"; lit "Status"; lit "Join_Date"];
     rows := map sample_participant (seq 0 20) |}.

(** The whole tab: [uploaded_file] is what the uploader holds and
    [generate_pressed] whether the sample-data button was pressed. *)
Definition data_tab `{Pandas} (uploaded_file : option UploadedFile) (generate_pressed : bool)
  : M St.script unit :=
  St.show (St.markdown (lit "### 📊 Data Upload & Management")) ;;
  St.show (St.markdown (lit "*Upload your nonprofit participant data for instant analysis and reporting.*")) ;;
  upload_handler uploaded_file ;;
  St.show (St.markdown (lit "#### 📋 Expected Format")) ;;
  St.show (St.markdown (lit "Your CSV should include columns like:")) ;;
  St.show (St.table sample_data) ;;
  St.show (St.markdown (lit "#### 💡 Tips for Best Results")) ;;
  St.show (St.markdown
    ([10] ++
     lit "        - Include headers in the first row" ++ [10] ++
     lit "        - Use consistent date formats" ++ [10] ++
     lit "        - Avoid special characters in column names" ++ [10] ++
     lit "        - Keep data clean and consistent" ++ [10] ++
     lit "        ")) ;;
  (if generate_pressed then
     St.session_set (lit "data") sample_participants ;;
     St.show (St.success (lit "✅ Sample data generated! Check the Analytics tab."))
   else ret tt) ;;
  stored <- session_lookup (lit "data") ;;
  match stored with
  | None =>
      St.show (St.info (lit "📤 **Ready to upload!** Choose a CSV file above to get started with data analysis."))
  | Some _ => ret tt
  end.

End AIApp.

(** ** The charts tab of both dashboards *)

Module Charts.

(** [Series.mean()] is pandas': a float, or an exception on a column that is
    not numeric. *)
Class Stats := {
  number : Type;
  mean : list (option str) -> res number
}.

(** plotly.express refuses a bar chart of nothing: [px.bar] given an empty
    [x] and an empty [y] raises a [ValueError], whose text is plotly's. *)
Class Plotly := { empty_bar_error : exception }.

(** A figure of plotly.express, kept as the call that builds it. *)
Inductive figure :=
(** [px.bar(x=value_counts.index, y=value_counts.values, title=..,
    labels={'x': .., 'y': ..})] with [value_counts = series.value_counts()] *)
| bar_of_counts (series : list (option str)) (title x_label y_label : str)
(** [px.histogram(data, x=.., title=.., labels=.., nbins=..)] *)
| histogram (data : DataFrame) (x title : str) (labels : list (str * str)) (nbins : nat)
(** [px.bar(data, x=.., y=.., title=..)] *)
| bar_of_frame (data : DataFrame) (x y title : str).

Section Tab.
Context `{Stats} `{Plotly}.

Inductive element :=
| widget (w : St.widget)
| plotly_chart (fig : figure)
(** [st.metric(label, f"{round(average, 1)} years")] *)
| years_metric (label : str) (average : number).

Record view := {
  session_state : gmap str DataFrame;
  page : list element
}.

Definition show (e : element) : M view unit :=
  fun v => (Ret tt, {| session_state := session_state v; page := page v ++ [e] |}).

Definition lift {A} (r : res A) : M view A := fun v => (r, v).

Definition session_lookup (key : str) : M view (option DataFrame) :=
  fun v => (Ret (session_state v !! key), v).

(** A computation that leaves the session state as it found it, whether it
    returns or raises. *)
Definition preserves_session {A} (m : M view A) : Prop :=
  forall v, session_state (snd (m v)) = session_state v.

(** The page and session a script has built so far, seen from this tab. *)
Definition of_script (s : St.script) : view :=
  {| session_state := St.session_state s; page := map widget (St.page s) |}.

(** [data[name]]: the cells of the first column of that name; [KeyError]
    when there is none. *)
Definition column (data : DataFrame) (name : str) : res (list (option str)) :=
  match list_find (fun c => c = name) (columns data) with
  | Some (i, _) => Ret (map (fun row => default None (row !! i)) (rows data))
  | None => Raise (Exception (lit "'" ++ name ++ lit "'"))
  end.

(** [px.bar(x=value_counts.index, y=value_counts.values, ..)] for
    [value_counts = series.value_counts()]: the counts leave out the missing
    cells, so they are empty, and the call raises, when the series has no
    cell that is present. *)
Definition px_bar_of_counts (series : list (option str)) (title x_label y_label : str)
  : res figure :=
  if forallb (fun cell => bool_decide (cell = None)) series then Raise empty_bar_error
  else Ret (bar_of_counts series title x_label y_label).

(** The three metrics under the chart, the same lines in both files
    ([app.py] 122-141, [AI_app.py] 457-476). *)
Definition quick_stats (data : DataFrame) : M view unit :=
  show (widget (St.write (lit "**Quick Stats:**"))) ;;
  show (widget (St.metric (lit "Total Records") (St.Count (df_len data)))) ;;
  (if bool_decide (lit "Status" ∈ columns data) then
     status <- lift (column data (lit "Status")) ;;
     let completed := length (filter (fun cell => cell = Some (lit "Completed")) status) in
     show (widget (St.metric (lit "Completed") (St.Count completed)))
   else
     show (widget (St.metric (lit "Columns") (St.Count (length (columns data)))))) ;;
  (if bool_decide (lit "Age" ∈ columns data) then
     ages <- lift (column data (lit "Age")) ;;
     avg_age <- lift (mean ages) ;;
     show (years_metric (lit "Average Age") avg_age)
   else
     show (widget (St.metric (lit "Data Points")
                     (St.Count (df_len data * length (columns data)))))).

(** The charts tab of [app.py], lines 98-145.  [selection] is what the
    select box returns: one of its options, or [None] when it has none. *)
Definition app_charts_tab (selection : option str) : M view unit :=
  show (widget (St.write (lit "### 📈 Data Visualization"))) ;;
  stored <- session_lookup (lit "data") ;;
  match stored with
  | Some data =>
      show (widget (St.write (lit "**Choose which column to visualize:**"))) ;;
      match selection with
      | Some col_to_chart =>
          value_counts <- lift (column data col_to_chart) ;;
          fig <- lift (px_bar_of_counts value_counts (lit "Count of " ++ col_to_chart)
                         col_to_chart (lit "Number of People")) ;;
          show (plotly_chart fig) ;;
          quick_stats data
      | None => raise (Exception (lit "None"))
      end
  | None =>
      show (widget (St.info (lit "📤 Please upload data in the 'Data Upload' tab first!")))
  end.

(** The frame behind the sample chart, lines 486-489. *)
Definition sample_chart_data : DataFrame :=
  {| columns := [lit "Program"; lit "Participants"];
     rows :=
       [ [Some (lit "Job Training"); Some (lit "25")];
         [Some (lit "Youth Mentoring"); Some (lit "18")];
         [Some (lit "Food Assistance"); Some (lit "32")];
         [Some (lit "Housing Support"); Some (lit "15")] ] |}.

(** The charts tab of [AI_app.py], lines 417-498. *)
Definition ai_charts_tab (selection : option str) : M view unit :=
  show (widget (St.write (lit "### 📈 Data Visualizations"))) ;;
  stored <- session_lookup (lit "data") ;;
  match stored with
  | Some data =>
      show (widget (St.success (lit "✅ Using data with " ++ str_of_nat (df_len data)
                                  ++ lit " participants"))) ;;
      show (widget (St.write (lit "**Choose what you want to visualize:**"))) ;;
      fig <-
        (if bool_decide (selection = Some (lit "Age"))
            && bool_decide (lit "Age" ∈ columns data) then
           show (widget (St.write (lit "📊 **Age Histogram** (shows age ranges, not individual ages)"))) ;;
           ret (histogram data (lit "Age") (lit "Age Distribution of Participants")
                  [(lit "Age", lit "Age"); (lit "count", lit "Number of People")] 10)
         else
           match selection with
           | Some column_to_chart =>
               value_counts <- lift (column data column_to_chart) ;;
               lift (px_bar_of_counts value_counts (lit "Count of " ++ column_to_chart)
                       column_to_chart (lit "Number of People"))
           | None => raise (Exception (lit "None"))
           end) ;;
      show (plotly_chart fig) ;;
      quick_stats data
  | None =>
      show (widget (St.info (lit "📤 Please upload data in the 'Data Upload' tab first!"))) ;;
      show (widget (St.write (lit "**Here's what your charts will look like:**"))) ;;
      show (plotly_chart
              (bar_of_frame sample_chart_data (lit "Program") (lit "Participants")
                 (lit "Sample: Participants by Program")))
  end.

End Tab.
End Charts.

(** ** Backends to run the model on *)

Module Fixtures.
Import AIApp.

(** No transformers library, no model: the rule-based mode. *)
Definition rule_based {W} : Globals W :=
  {| HF_AVAILABLE := false; ai_model := None |}.

(** A tokenizer with one token per code point.  The hidden state counts the
    calls that reached the backend. *)
Definition char_tokenizer : Tokenizer nat :=
  {| eos_token := Some (lit "<|endoftext|>");
     eos_token_id := Some 50256;
     encode := fun text n => (Ret text, S n);
     decode := fun ids n => (Ret ids, S n) |}.

(** A model that answers the prompt with a fixed continuation, within the
    length it is allowed (the 13 tokens dropped are the end-of-sequence
    marker, which decoding skips). *)
Definition continuing (continuation : str) : Model nat :=
  {| generate := fun inputs config n =>
       (Ret [take (max_length config) (take (length inputs - 13) inputs ++ continuation)], S n) |}.

(** A model that ignores the length it is allowed and rambles on. *)
Definition rambling : Model nat :=
  {| generate := fun inputs _ n =>
       (Ret [take (length inputs - 13) inputs ++ repeat 97 250], S n) |}.

(** A model whose every call raises. *)
Definition raising : Model nat :=
  {| generate := fun _ _ n => (Raise (Exception (lit "CUDA out of memory")), S n) |}.

Definition with_model (m : Model nat) : Globals nat :=
  {| HF_AVAILABLE := true; ai_model := Some {| model := m; tokenizer := char_tokenizer |} |}.

Definition fresh {W} (h : W) : world W := {| hidden := h; trace := [] |}.

Definition no_pandas : Pandas := fun _ => Raise (Exception (lit "No columns to parse from file")).

Definition one_row : DataFrame :=
  {| columns := [lit "Name"]; rows := [[Some (lit "Ann")]] |}.

Definition fixed_pandas : Pandas := fun _ => Ret one_row.

(** A hub that hands out the fixtures above, and one without network. *)
Definition local_hub : Hub nat :=
  {| tokenizer_from_pretrained := fun _ =>
       Ret {| pad_token := None; as_tokenizer := char_tokenizer |};
     model_from_pretrained := fun _ => Ret (continuing (lit " We care. ")) |}.

Definition offline_hub : Hub nat :=
  {| tokenizer_from_pretrained := fun _ => Raise (Exception (lit "Connection error"));
     model_from_pretrained := fun _ => Ret raising |}.

Definition blank_page : St.script := {| St.session_state := ∅; St.page := [] |}.

(** A parser that finds a header and no rows. *)
Definition header_only : Pandas :=
  fun _ => Ret {| columns := [lit "Name"]; rows := [] |}.

(** Statistics that take the mean of nothing: every column counts as not
    numeric. *)
Definition no_stats : Charts.Stats :=
  {| Charts.number := unit;
     Charts.mean := fun _ => Raise (Exception (lit "Could not convert to numeric")) |}.

(** Statistics after pandas on columns of whole numbers: the mean is the sum
    and the count of the cells that are present, and a cell that is not a
    number makes it raise. *)
Fixpoint digits (acc : nat) (s : str) : option nat :=
  match s with
  | [] => Some acc
  | c :: rest =>
      if (48 <=? c) && (c <=? 57) then digits (acc * 10 + N.to_nat (c - 48)) rest
      else None
  end.

Fixpoint total (cells : list (option str)) : option (nat * nat) :=
  match cells with
  | [] => Some (0, 0)%nat
  | None :: rest => total rest
  | Some [] :: _ => None
  | Some s :: rest =>
      match digits 0 s, total rest with
      | Some n, Some (sum, count) => Some (n + sum, S count)%nat
      | _, _ => None
      end
  end.

Definition whole_numbers : Charts.Stats :=
  {| Charts.number := nat * nat;
     Charts.mean := fun cells =>
       match total cells with
       | Some m => Ret m
       | None => Raise (Exception (lit "Could not convert to numeric"))
       end |}.

Definition plotly : Charts.Plotly :=
  {| Charts.empty_bar_error :=
       Exception (lit "Cannot accept list of column references or list of columns for both `x` and `y`.") |}.

(** The charts tab as it finds a session that holds [data], on an empty
    page. *)
Definition holding (data : DataFrame) : @Charts.view whole_numbers :=
  {| Charts.session_state := {[ lit "data" := data ]}; Charts.page := [] |}.

Definition participants : DataFrame :=
  {| columns := [lit "Name"; lit "Age"; lit "Status"];
     rows := [ [Some (lit "Ann"); Some (lit "34"); Some (lit "Completed")];
               [Some (lit "Bob"); None; Some (lit "Active")] ] |}.

Definition ages_in_words : DataFrame :=
  {| columns := [lit "Name"; lit "Age"];
     rows := [ [Some (lit "Ann"); Some (lit "thirty")] ] |}.

Definition participants_csv : Pandas := fun _ => Ret participants.

End Fixtures.

(** ** Running the two answer functions *)

Section Runs.
Import Fixtures.
#[local] Existing Instance ascii_only.

Example app_volunteer_weekend :
  App.get_chatbot_answer (lit "Can I volunteer this weekend?") = App.volunteer_template.
Proof. vm_compute. reflexivity. Qed.

Example app_donate_now :
  App.get_chatbot_answer (lit "DONATE NOW") = App.donate_template.
Proof. vm_compute. reflexivity. Qed.

(** Matching is by substring, not by word. *)
Example app_donated :
  App.get_chatbot_answer (lit "I donated last year") = App.donate_template.
Proof. vm_compute. reflexivity. Qed.

Example ai_volunteer_weekend :
  AIApp.get_chatbot_answer rule_based (lit "Can I volunteer this weekend?") (fresh tt)
  = (Ret AIApp.volunteer_template, fresh tt).
Proof. vm_compute. reflexivity. Qed.

Example ai_donate_now :
  AIApp.get_chatbot_answer rule_based (lit "DONATE NOW") (fresh tt)
  = (Ret AIApp.donate_template, fresh tt).
Proof. vm_compute. reflexivity. Qed.

Example ai_urgent_donation_hours :
  AIApp.get_chatbot_answer rule_based (lit "urgent donation hours") (fresh tt)
  = (Ret AIApp.hours_template, fresh tt).
Proof. vm_compute. reflexivity. Qed.

Example ai_generated_reply :
  fst (AIApp.get_chatbot_answer (with_model (continuing (lit " We care. ")))
         (lit "Hello, how are you?") (fresh 0%nat))
  = Ret (AIApp.ai_reply (lit "We care.")).
Proof. vm_compute. reflexivity. Qed.

Example ai_rambling_clipped :
  fst (AIApp.generate_ai_response (with_model rambling) (lit "Hello, how are you?") (fresh 0%nat))
  = Ret (Some (repeat 97 200 ++ [46; 46; 46])).
Proof. vm_compute. reflexivity. Qed.

Example ai_raising_backend :
  fst (AIApp.get_chatbot_answer (with_model raising) (lit "Hello, how are you?") (fresh 0%nat))
  = Ret AIApp.default_response.
Proof. vm_compute. reflexivity. Qed.
End Runs.

(** ** Facts about strings *)

Section StringFacts.

Lemma startswith_spec (s p : str) :
  startswith s p = true <-> exists t, s = p ++ t.
Proof.
  revert s. induction p as [|k p IH]; intros s.
  - destruct s; simpl; split; eauto.
  - destruct s as [|c s]; simpl.
    + split; [discriminate | intros [t Ht]; discriminate].
    + rewrite andb_true_iff, N.eqb_eq, IH. split.
      * intros [-> [t ->]]. eauto.
      * intros [t Ht]. injection Ht as -> ->. eauto.
Qed.

(** [contains] is the substring test. *)
Lemma contains_spec (n h : str) :
  contains n h = true <-> exists a b, h = a ++ n ++ b.
Proof.
  induction h as [|c h IH]; cbn [contains].
  - rewrite orb_false_r, startswith_spec. split.
    + intros [t Ht]. exists [], t. exact Ht.
    + intros (a & b & Hab). destruct a; simpl in Hab; [eauto | discriminate].
  - rewrite orb_true_iff, startswith_spec, IH. split.
    + intros [[t Ht] | (a & b & ->)].
      * exists [], t. exact Ht.
      * exists (c :: a), b. reflexivity.
    + intros (a & b & Hab). destruct a as [|c' a]; simpl in Hab.
      * left. eauto.
      * right. injection Hab as -> ->. eauto.
Qed.

Lemma startswith_nocase_spec (s keyword : str) :
  startswith_nocase s keyword = true
  <-> exists m t, s = m ++ t /\ map ascii_lower m = keyword.
Proof.
  revert s. induction keyword as [|k keyword IH]; intros s.
  - destruct s; simpl; split; try reflexivity; intros _; exists []; eauto.
  - destruct s as [|c s]; simpl.
    + split; [discriminate|]. intros (m & t & Hs & Hm).
      destruct m; [discriminate Hm | discriminate Hs].
    + rewrite andb_true_iff, N.eqb_eq, IH. split.
      * intros [-> (m & t & -> & <-)]. exists (c :: m), t. split; reflexivity.
      * intros (m & t & Hs & Hm). destruct m as [|c' m]; [discriminate Hm|].
        simpl in Hs, Hm. injection Hs as -> ->. injection Hm as <- <-. eauto.
Qed.

(** [contains_nocase]: some substring of the text is the keyword up to the
    case of its ASCII letters. *)
Lemma contains_nocase_spec (keyword text : str) :
  contains_nocase keyword text = true
  <-> exists a m b, text = a ++ m ++ b /\ map ascii_lower m = keyword.
Proof.
  induction text as [|c text IH]; cbn [contains_nocase].
  - rewrite orb_false_r, startswith_nocase_spec. split.
    + intros (m & t & Hs & Hm). exists [], m, t. eauto.
    + intros (a & m & b & Hab & Hm). destruct a; simpl in Hab; [eauto | discriminate].
  - rewrite orb_true_iff, startswith_nocase_spec, IH. split.
    + intros [(m & t & Hs & Hm) | (a & m & b & -> & Hm)].
      * exists [], m, t. eauto.
      * exists (c :: a), m, b. eauto.
    + intros (a & m & b & Hab & Hm). destruct a as [|c' a]; simpl in Hab.
      * left. eauto.
      * right. injection Hab as -> ->. eauto.
Qed.

Lemma startswith_contains (s p : str) :
  startswith s p = true -> contains p s = true.
Proof. intros Hs. destruct s; cbn [contains]; rewrite Hs; reflexivity. Qed.

Lemma contains_cons (n : str) (c : N) (h : str) :
  contains n h = true -> contains n (c :: h) = true.
Proof. intros Hc. cbn [contains]. rewrite Hc. apply orb_true_r. Qed.

Lemma contains_app_r (n x h : str) :
  contains n h = true -> contains n (x ++ h) = true.
Proof.
  intros Hc. induction x as [|c x IH]; [exact Hc|].
  rewrite <- app_comm_cons. apply contains_cons, IH.
Qed.

(** A match starts with the first character of the needle. *)
Lemma startswith_head (k : N) (n s : str) :
  startswith s (k :: n) = true -> exists s', s = k :: s'.
Proof.
  destruct s as [|c s']; simpl; [discriminate|].
  intros [Hk _]%andb_true_iff. apply N.eqb_eq in Hk. subst. eauto.
Qed.

Lemma contains_elem (k : N) (n s : str) :
  contains (k :: n) s = true -> k ∈ s.
Proof.
  induction s as [|c s IH]; [discriminate|].
  change (contains (k :: n) (c :: s))
    with (startswith (c :: s) (k :: n) || contains (k :: n) s).
  intros [Hs|Hc]%orb_true_iff.
  - apply startswith_head in Hs as [s' Hs']. injection Hs' as -> _. apply list_elem_of_here.
  - apply list_elem_of_further, IH, Hc.
Qed.

Lemma ascii_lower_below (k c : N) :
  k < 128 -> k = ascii_lower c -> c < 128.
Proof.
  unfold ascii_lower, is_upper_ascii. intros Hk ->.
  destruct (65 <=? c) eqn:H1, (c <=? 90) eqn:H2; simpl in Hk;
    try apply N.leb_le in H1; try apply N.leb_le in H2; lia.
Qed.

Lemma ascii_lower_space (c : N) :
  is_space c = true -> ascii_lower c = c.
Proof.
  unfold ascii_lower, is_upper_ascii. intros Hs.
  destruct (65 <=? c) eqn:H1, (c <=? 90) eqn:H2; simpl; try reflexivity.
  apply N.leb_le in H1, H2. exfalso. revert Hs. unfold is_space.
  repeat match goal with
         | |- context [?a <=? ?b] => destruct (N.leb_spec a b); try lia
         | |- context [?a =? ?b] => destruct (N.eqb_spec a b); try lia
         end.
  all: simpl; discriminate.
Qed.

Context `{UnicodeData}.

Lemma lower_from_cons (before : str) (c : N) (rest : str) :
  exists x, lower_from before (c :: rest) = x ++ lower_from (c :: before) rest.
Proof. simpl. eauto. Qed.

(** Lowering keeps a keyword met in any letter case, wherever it stands
    and whatever surrounds it. *)
Lemma startswith_lower (kw : str) :
  Forall (fun k => k < 128) kw ->
  forall s before, startswith_nocase s kw = true ->
                   startswith (lower_from before s) kw = true.
Proof.
  induction 1 as [|k kw Hk Hkw IH]; intros s before Hs.
  - destruct (lower_from before s); reflexivity.
  - destruct s as [|c s]; [discriminate|]. simpl in Hs.
    apply andb_true_iff in Hs as [Hkc Hrest]. apply N.eqb_eq in Hkc.
    pose proof (ascii_lower_below k c Hk Hkc) as Hc.
    apply N.ltb_lt in Hc. simpl. rewrite Hc. simpl.
    rewrite <- Hkc, N.eqb_refl. simpl. apply IH, Hrest.
Qed.

Lemma contains_lower (kw : str) :
  Forall (fun k => k < 128) kw ->
  forall s before, contains_nocase kw s = true ->
                   contains kw (lower_from before s) = true.
Proof.
  intros Hkw. induction s as [|c s IH]; intros before Hc.
  - simpl in Hc. rewrite orb_false_r in Hc.
    apply startswith_contains, startswith_lower; assumption.
  - change (contains_nocase kw (c :: s))
      with (startswith_nocase (c :: s) kw || contains_nocase kw s) in Hc.
    apply orb_true_iff in Hc as [Hs|Hc].
    + apply startswith_contains, startswith_lower; assumption.
    + destruct (lower_from_cons before c s) as [x ->].
      apply contains_app_r, IH, Hc.
Qed.

(** White space has no case. *)
Lemma lower_from_space (s : str) :
  forallb is_space s = true -> forall before, lower_from before s = s.
Proof.
  induction s as [|c s IH]; intros Hs before; [reflexivity|].
  simpl in Hs. apply andb_true_iff in Hs as [Hc Hs].
  simpl. rewrite (IH Hs). destruct (c <? 128).
  - rewrite (ascii_lower_space c Hc). reflexivity.
  - rewrite (tolower_space _ _ _ Hc). reflexivity.
Qed.

Lemma contains_space (k : N) (n s : str) :
  is_space k = false -> forallb is_space s = true -> contains (k :: n) s = false.
Proof.
  intros Hk Hs. destruct (contains (k :: n) s) eqn:Hc; [|reflexivity].
  apply contains_elem in Hc. rewrite forallb_forall in Hs.
  apply list_elem_of_In, Hs in Hc. congruence.
Qed.

End StringFacts.

(** ** Facts about first-match classification *)

Section TableFacts.

Lemma first_match_wins (table : list (Category * list str)) (text : str) :
  wins table (first_match table text) text.
Proof.
  induction table as [|[c keywords] table IH]; simpl.
  - right. split; [reflexivity | constructor].
  - destruct (matches keywords text) eqn:Hm.
    + left. exists [], keywords, table.
      split; [reflexivity | split; [exact Hm | constructor]].
    + destruct IH as [(earlier & kws & later & Ht & Hk & He) | [Hu Hall]].
      * left. exists ((c, keywords) :: earlier), kws, later.
        split; [simpl; congruence | split; [exact Hk | constructor; [exact Hm | exact He]]].
      * right. split; [exact Hu | constructor; [exact Hm | exact Hall]].
Qed.

Lemma wins_first_match (table : list (Category * list str)) (text : str) (c : Category) :
  wins table c text -> c = first_match table text.
Proof.
  intros [(earlier & kws & later & -> & Hk & He) | [-> Hall]].
  - induction He as [|[c' kws'] earlier Hc' He IH]; simpl.
    + rewrite Hk. reflexivity.
    + simpl in Hc'. rewrite Hc'. exact IH.
  - induction Hall as [|[c' kws'] table Hc' Hall IH]; simpl; [reflexivity|].
    simpl in Hc'. rewrite Hc'. exact IH.
Qed.

(** What the shorter table of [app.py] leaves unmatched includes all that
    the table of [AI_app.py] leaves unmatched. *)
Lemma unmatched_in_both (text : str) :
  first_match AIApp.keyword_table text = Unmatched ->
  first_match App.keyword_table text = Unmatched.
Proof.
  unfold AIApp.keyword_table, App.keyword_table.
  cbn [first_match].
  repeat match goal with
         | |- context [matches ?k text] => destruct (matches k text); try discriminate
         end.
  reflexivity.
Qed.

Lemma keyword_matches (table : list (Category * list str)) (text kw : str) :
  Forall (fun entry => fst entry <> Unmatched) table ->
  kw ∈ concat (map snd table) -> contains kw text = true ->
  first_match table text <> Unmatched.
Proof.
  induction 1 as [|[c keywords] table Hc Ht IH]; simpl; intros Hin Hkw.
  - inversion Hin.
  - destruct (matches keywords text) eqn:Hm; [exact Hc|].
    apply elem_of_app in Hin as [Hin|Hin]; [|apply IH; assumption].
    exfalso. unfold matches in Hm.
    assert (existsb (fun k => contains k text) keywords = true) as Hex.
    { apply existsb_exists. exists kw. split; [apply list_elem_of_In, Hin | exact Hkw]. }
    congruence.
Qed.

End TableFacts.

(** ** The answer functions dispatch on the first matching category *)

Section Dispatch.
Context `{UnicodeData}.

Lemma matches_one (a text : str) : matches [a] text = contains a text.
Proof. unfold matches. cbn [existsb]. apply orb_false_r. Qed.

Lemma matches_two (a b text : str) :
  matches [a; b] text = contains a text || contains b text.
Proof. unfold matches. cbn [existsb]. rewrite orb_false_r. reflexivity. Qed.

Lemma matches_three (a b c text : str) :
  matches [a; b; c] text = contains a text || contains b text || contains c text.
Proof.
  unfold matches. cbn [existsb]. rewrite orb_false_r, orb_assoc. reflexivity.
Qed.

(** Walk down an [if]/[elif] chain and the table side by side. *)
Ltac by_keywords :=
  cbn [first_match]; rewrite ?matches_one, ?matches_two, ?matches_three;
  repeat match goal with
         | |- context [first_match [] _] => cbn [first_match]
         | |- context [if ?b then _ else _] =>
             match b with
             | context [contains _ _] => destruct b eqn:?
             end
         end.

Lemma app_dispatch (question : str) :
  App.get_chatbot_answer question
  = match first_match App.keyword_table (lower question) with
    | Hours => App.hours_template
    | Volunteer => App.volunteer_template
    | Donate => App.donate_template
    | Programs => App.programs_template
    | _ => App.unmatched_reply (lower question)
    end.
Proof.
  unfold App.get_chatbot_answer, App.keyword_table.
  by_keywords; reflexivity.
Qed.

Context {W : Type} (g : AIApp.Globals W).

Lemma ai_matched (question : str) (w : AIApp.world W) :
  first_match AIApp.keyword_table (lower question) <> Unmatched ->
  AIApp.get_chatbot_answer g question w
  = (Ret (AIApp.template (first_match AIApp.keyword_table (lower question))), w).
Proof.
  unfold AIApp.get_chatbot_answer, AIApp.keyword_table.
  by_keywords; intros Hne; try reflexivity. contradiction.
Qed.

Lemma ai_unmatched (question : str) (w : AIApp.world W) :
  first_match AIApp.keyword_table (lower question) = Unmatched ->
  AIApp.get_chatbot_answer g question w
  = if bool_decide (is_Some (AIApp.ai_model g)) && AIApp.HF_AVAILABLE g then
      match AIApp.generate_ai_response g question w with
      | (Ret (Some ai_response), w') =>
          if truthy ai_response && (0 <? length (strip ai_response))%nat
          then (Ret (AIApp.ai_reply ai_response), w')
          else (Ret AIApp.default_response, w')
      | (_, w') => (Ret AIApp.default_response, w')
      end
    else (Ret AIApp.default_response, w).
Proof.
  unfold AIApp.get_chatbot_answer, AIApp.keyword_table.
  by_keywords; intros Hu; try discriminate.
  unfold bind, try_except, ret.
  destruct (bool_decide (is_Some (AIApp.ai_model g)) && AIApp.HF_AVAILABLE g);
    [|reflexivity].
  destruct (AIApp.generate_ai_response g question w) as [[[a|]|e] w']; try reflexivity.
  destruct (truthy a && (0 <? length (strip a))%nat); reflexivity.
Qed.

End Dispatch.

(** ** The fallback generator, step by step *)

Section Generation.
Context {W : Type} (g : AIApp.Globals W).
Import AIApp.

Lemma generate_unavailable (question : str) (w : world W) :
  ai_model g = None \/ HF_AVAILABLE g = false ->
  generate_ai_response g question w = (Ret None, w).
Proof.
  unfold generate_ai_response. intros [Hm|Hf].
  - rewrite Hm. reflexivity.
  - rewrite Hf, orb_true_r. reflexivity.
Qed.

(** The run of an available backend, call by call. *)
Lemma generate_run (ai : AiModel W) (question : str) (w : world W) :
  ai_model g = Some ai -> HF_AVAILABLE g = true ->
  generate_ai_response g question w
  = match eos_token (tokenizer ai) with
    | None => (Ret None, w)
    | Some eos =>
        let text := (nonprofit_context ++ question) ++ eos in
        let (r1, h1) := encode (tokenizer ai) text (hidden w) in
        let t1 := trace w ++ [Encoded text r1] in
        match r1 with
        | Raise _ => (Ret None, {| hidden := h1; trace := t1 |})
        | Ret inputs =>
            let config := generate_kwargs inputs (tokenizer ai) in
            let (r2, h2) := generate (model ai) inputs config h1 in
            let t2 := t1 ++ [Generated inputs config r2] in
            match r2 with
            | Raise _ | Ret [] => (Ret None, {| hidden := h2; trace := t2 |})
            | Ret (first :: _) =>
                let (r3, h3) := decode (tokenizer ai) first h2 in
                let t3 := t2 ++ [Decoded first r3] in
                match r3 with
                | Raise _ => (Ret None, {| hidden := h3; trace := t3 |})
                | Ret out =>
                    (Ret (Some (clip (strip (drop (length (nonprofit_context ++ question)) out)))),
                     {| hidden := h3; trace := t3 |})
                end
            end
        end
    end.
Proof.
  intros Hm Hf. unfold generate_ai_response. rewrite Hm, Hf.
  assert (bool_decide (is_Some (Some ai)) = true) as -> by (apply bool_decide_eq_true; eauto).
  cbn [negb orb]. unfold try_except, bind, ret, raise, call. cbn [hidden trace].
  destruct (eos_token (tokenizer ai)) as [eos|]; [|reflexivity].
  destruct (encode _ _ _) as [[inputs|e1] h1]; [|reflexivity].
  cbn [hidden trace].
  destruct (generate _ _ _ _) as [[[|first others]|e2] h2]; try reflexivity.
  cbn [hidden trace].
  destruct (decode _ _ _) as [[out|e3] h3]; reflexivity.
Qed.

Lemma generate_returns (question : str) (w : world W) :
  exists r w', generate_ai_response g question w = (Ret r, w').
Proof.
  destruct (ai_model g) as [ai|] eqn:Hm; [|rewrite generate_unavailable; eauto].
  destruct (HF_AVAILABLE g) eqn:Hf; [|rewrite generate_unavailable; eauto].
  rewrite (generate_run ai) by assumption.
  destruct (eos_token _); [|eauto]. cbv zeta.
  destruct (encode _ _ _) as [[inputs|e1] h1]; [|eauto].
  destruct (generate _ _ _ _) as [[[|first others]|e2] h2]; eauto.
  destruct (decode _ _ _) as [[out|e3] h3]; eauto.
Qed.

Lemma generate_fails (ai : AiModel W) (question : str) (w : world W) :
  ai_model g = Some ai -> HF_AVAILABLE g = true ->
  generation_fails ai question (hidden w) ->
  exists w', generate_ai_response g question w = (Ret None, w')
             \/ generate_ai_response g question w = (Ret (Some []), w').
Proof.
  intros Hm Hf Hfail. rewrite (generate_run ai) by assumption.
  destruct Hfail as [He | eos e h1 He H1 | eos inputs h1 e h2 He H1 H2
                    | eos inputs h1 h2 He H1 H2
                    | eos inputs h1 first others h2 e h3 He H1 H2 H3
                    | eos inputs h1 first others h2 out h3 He H1 H2 H3 Hblank];
    rewrite He; cbv zeta; try rewrite H1; try rewrite H2; try rewrite H3; eauto.
  rewrite Hblank. eauto.
Qed.

End Generation.

(** ** Templates and the categories they stand for *)

Section Templates.

Lemma ai_template_category (c : Category) :
  AIApp.category_of (AIApp.template c) = c.
Proof. destruct c; vm_compute; reflexivity. Qed.

Lemma ai_template_nonempty (c : Category) : AIApp.template c <> [].
Proof. destruct c; vm_compute; discriminate. Qed.

Lemma ai_default_facts :
  AIApp.default_response <> []
  /\ AIApp.category_of AIApp.default_response = Unmatched.
Proof. split; vm_compute; [discriminate | reflexivity]. Qed.

Lemma ai_reply_head (ai_response : str) :
  exists rest, AIApp.ai_reply ai_response = 129302 :: rest.
Proof.
  unfold AIApp.ai_reply.
  assert (exists p, lit "🤖 **AI Assistant:** " = 129302 :: p) as [p ->]
      by (vm_compute; eauto).
  rewrite <- app_comm_cons. eauto.
Qed.

Lemma ai_reply_category (ai_response : str) :
  AIApp.category_of (AIApp.ai_reply ai_response) = Unmatched.
Proof.
  destruct (ai_reply_head ai_response) as [rest ->].
  unfold AIApp.category_of.
  repeat match goal with
         | |- context [decide (?a = ?b)] =>
             destruct (decide (a = b)) as [Heq|_];
             [apply (f_equal head) in Heq; vm_compute in Heq; discriminate|]
         end.
  reflexivity.
Qed.

Lemma app_template_category :
  App.category_of App.hours_template = Hours
  /\ App.category_of App.volunteer_template = Volunteer
  /\ App.category_of App.donate_template = Donate
  /\ App.category_of App.programs_template = Programs.
Proof. repeat split; vm_compute; reflexivity. Qed.

Lemma app_templates_nonempty :
  App.hours_template <> [] /\ App.volunteer_template <> []
  /\ App.donate_template <> [] /\ App.programs_template <> [].
Proof. repeat split; vm_compute; discriminate. Qed.

(** The reply of the [else] branch opens with "Thanks", which no template
    does. *)
Lemma app_reply_head (lowered : str) :
  exists rest, App.unmatched_reply lowered = 84 :: 104 :: 97 :: 110 :: 107 :: 115 :: rest.
Proof.
  unfold App.unmatched_reply.
  assert (exists p, lit "Thanks for asking about '"
                    = 84 :: 104 :: 97 :: 110 :: 107 :: 115 :: p) as [p ->]
      by (vm_compute; eauto).
  repeat rewrite <- app_comm_cons. eauto.
Qed.

Lemma app_reply_category (lowered : str) :
  App.category_of (App.unmatched_reply lowered) = Unmatched.
Proof.
  destruct (app_reply_head lowered) as [rest ->].
  unfold App.category_of.
  repeat match goal with
         | |- context [decide (?a = ?b)] =>
             destruct (decide (a = b)) as [Heq|_];
             [apply (f_equal (take 6)) in Heq; vm_compute in Heq; discriminate|]
         end.
  reflexivity.
Qed.

End Templates.

(** ** What every answer is *)

Section Answers.
Context `{UnicodeData}.

Lemma app_first_match_range (text : str) :
  first_match App.keyword_table text <> Contact
  /\ first_match App.keyword_table text <> Emergency.
Proof.
  unfold App.keyword_table. cbn [first_match].
  repeat match goal with
         | |- context [matches ?k text] => destruct (matches k text)
         end; split; discriminate.
Qed.

Lemma app_answer_summary (question : str) :
  App.get_chatbot_answer question <> []
  /\ App.category_of (App.get_chatbot_answer question)
     = first_match App.keyword_table (lower question).
Proof.
  rewrite app_dispatch.
  destruct (app_first_match_range (lower question)) as [Hc He].
  destruct (app_templates_nonempty) as (N1 & N2 & N3 & N4).
  destruct (app_template_category) as (C1 & C2 & C3 & C4).
  destruct (first_match App.keyword_table (lower question));
    try contradiction; try (split; assumption).
  split; [|apply app_reply_category].
  destruct (app_reply_head (lower question)) as [rest ->]. discriminate.
Qed.

Context {W : Type}.

Lemma ai_answer_summary (g : AIApp.Globals W) (question : str) (w : AIApp.world W) :
  exists s w',
    AIApp.get_chatbot_answer g question w = (Ret s, w')
    /\ s <> []
    /\ AIApp.category_of s = first_match AIApp.keyword_table (lower question).
Proof.
  destruct (decide (first_match AIApp.keyword_table (lower question) = Unmatched))
    as [Hu|Hm].
  - rewrite (ai_unmatched g question w Hu), Hu.
    destruct ai_default_facts as [Hd1 Hd2].
    assert (forall w' : AIApp.world W, exists s w'',
               (Ret AIApp.default_response, w') = (@Ret str s, w'')
               /\ s <> [] /\ AIApp.category_of s = Unmatched) as Hdefault
        by (intros w'; exists AIApp.default_response, w'; auto).
    destruct (bool_decide _ && _); [|apply Hdefault].
    destruct (AIApp.generate_ai_response g question w) as [[[a|]|e] w'];
      try apply Hdefault.
    destruct (truthy a && _); [|apply Hdefault].
    exists (AIApp.ai_reply a), w'. split; [reflexivity|].
    split; [|apply ai_reply_category].
    destruct (ai_reply_head a) as [rest ->]. discriminate.
  - rewrite (ai_matched g question w Hm).
    eexists _, _. split; [reflexivity|].
    split; [apply ai_template_nonempty | apply ai_template_category].
Qed.

Lemma whitespace_unmatched (table : list (Category * list str)) (s : str) :
  forallb (fun kw => match kw with k :: _ => negb (is_space k) | [] => false end)
          (concat (map snd table)) = true ->
  forallb is_space s = true ->
  first_match table s = Unmatched.
Proof.
  intros Hkw Hs. induction table as [|[c keywords] table IH]; [reflexivity|].
  simpl in Hkw. rewrite forallb_app in Hkw. apply andb_true_iff in Hkw as [Hhere Hrest].
  simpl. replace (matches keywords s) with false; [apply IH, Hrest|].
  symmetry. unfold matches. clear IH Hrest.
  induction keywords as [|[|k rest] keywords IH]; [reflexivity|discriminate|].
  simpl in Hhere. apply andb_true_iff in Hhere as [Hk Hhere].
  apply negb_true_iff in Hk.
  simpl. rewrite (contains_space k rest s Hk Hs). exact (IH Hhere).
Qed.

Lemma ai_keywords_start_with_letters :
  forallb (fun kw => match kw with k :: _ => negb (is_space k) | [] => false end)
          (concat (map snd AIApp.keyword_table)) = true.
Proof. vm_compute. reflexivity. Qed.

Lemma backend_untouched (g : AIApp.Globals W) (question : str) (w : AIApp.world W) :
  AIApp.ai_model g = None \/ AIApp.HF_AVAILABLE g = false ->
  exists answer, AIApp.get_chatbot_answer g question w = (Ret answer, w).
Proof.
  intros Hcfg.
  destruct (decide (first_match AIApp.keyword_table (lower question) = Unmatched))
    as [Hu|Hm].
  - rewrite (ai_unmatched g question w Hu).
    destruct Hcfg as [-> | ->]; [|rewrite andb_false_r]; eauto.
  - rewrite (ai_matched g question w Hm). eauto.
Qed.

Lemma hours_keywords_ascii :
  Forall (fun k => k < 128) (lit "hours") /\ Forall (fun k => k < 128) (lit "time").
Proof. split; vm_compute; repeat constructor. Qed.

End Answers.

(** ** The intent matcher *)

Section Matcher.
Context `{UnicodeData} {W : Type}.

(** C1 (amended): the answer of [AI_app.py] stands for the first category,
    in the order hours/time, volunteer, donate, programs/services,
    contact/phone/email, emergency/crisis/urgent, whose keyword set has a
    substring match in the lowered question, and for [Unmatched] when no
    keyword matches; the answer of [app.py] does the same over the first
    four categories only. *)
Theorem classify_first_match
    (g : AIApp.Globals W) (question : str) (w : AIApp.world W) :
  (exists s w',
      AIApp.get_chatbot_answer g question w = (Ret s, w')
      /\ AIApp.category_of s = first_match AIApp.keyword_table (lower question))
  /\ App.category_of (App.get_chatbot_answer question)
     = first_match App.keyword_table (lower question).
Proof.
  split.
  - destruct (ai_answer_summary g question w) as (s & w' & Hrun & _ & Hcat). eauto.
  - apply app_answer_summary.
Qed.

(** C2: a question that has "hours" or "time" in it, in any letter case,
    gets the Hours template from both dashboards, whatever else it
    mentions, and the backend is left alone. *)
Theorem hours_take_priority
    (g : AIApp.Globals W) (question : str) (w : AIApp.world W) :
  contains_nocase (lit "hours") question || contains_nocase (lit "time") question = true ->
  App.get_chatbot_answer question = App.hours_template
  /\ AIApp.get_chatbot_answer g question w = (Ret AIApp.hours_template, w).
Proof.
  intros Hq. destruct hours_keywords_ascii as [Hh Ht].
  assert (matches [lit "hours"; lit "time"] (lower question) = true) as Hm.
  { rewrite matches_two. apply orb_true_iff.
    apply orb_true_iff in Hq as [Hq|Hq]; [left|right]; apply contains_lower; assumption. }
  split.
  - rewrite app_dispatch. unfold App.keyword_table. cbn [first_match].
    rewrite Hm. reflexivity.
  - assert (first_match AIApp.keyword_table (lower question) = Hours) as Hc
        by (unfold AIApp.keyword_table; cbn [first_match]; rewrite Hm; reflexivity).
    rewrite ai_matched by (rewrite Hc; discriminate). rewrite Hc. reflexivity.
Qed.

(** C3 (amended): without a backend, every question that [AI_app.py] leaves
    unmatched gets the one fixed default message, and the backend state is
    not touched; every question that [app.py] leaves unmatched (which
    includes the ones about contact or an emergency) instead gets a fixed
    frame around the lowered question. *)
Theorem unmatched_default_reply
    (g : AIApp.Globals W) (question : str) (w : AIApp.world W) :
  (AIApp.ai_model g = None \/ AIApp.HF_AVAILABLE g = false ->
   first_match AIApp.keyword_table (lower question) = Unmatched ->
   AIApp.get_chatbot_answer g question w = (Ret AIApp.default_response, w))
  /\ (first_match App.keyword_table (lower question) = Unmatched ->
      App.get_chatbot_answer question = App.unmatched_reply (lower question)).
Proof.
  split.
  - intros Hcfg Hu. rewrite (ai_unmatched g question w Hu).
    destruct Hcfg as [-> | ->]; [reflexivity | rewrite andb_false_r; reflexivity].
  - intros Hu. rewrite app_dispatch, Hu. reflexivity.
Qed.

(** C4 (amended): an empty or all-white-space question is unmatched for
    both dashboards and neither raises; without a backend [AI_app.py]
    returns its fixed default message, and [app.py] returns its unmatched
    frame around the question as typed, so its answer differs from one
    blank question to another. *)
Theorem blank_input_unmatched
    (g : AIApp.Globals W) (question : str) (w : AIApp.world W) :
  forallb is_space question = true ->
  AIApp.ai_model g = None \/ AIApp.HF_AVAILABLE g = false ->
  first_match AIApp.keyword_table (lower question) = Unmatched
  /\ first_match App.keyword_table (lower question) = Unmatched
  /\ AIApp.get_chatbot_answer g question w = (Ret AIApp.default_response, w)
  /\ App.get_chatbot_answer question = App.unmatched_reply question.
Proof.
  intros Hs Hcfg.
  assert (lower question = question) as Hl by (apply lower_from_space, Hs).
  assert (first_match AIApp.keyword_table (lower question) = Unmatched) as Hu.
  { rewrite Hl. apply whitespace_unmatched; [apply ai_keywords_start_with_letters | exact Hs]. }
  split; [exact Hu|]. split; [apply unmatched_in_both, Hu|]. split.
  - rewrite (ai_unmatched g question w Hu).
    destruct Hcfg as [-> | ->]; [reflexivity | rewrite andb_false_r; reflexivity].
  - rewrite app_dispatch, (unmatched_in_both _ Hu), Hl. reflexivity.
Qed.

(** C5: whatever the question and whatever the backend does (absent,
    answering, raising), both answer functions return a non-empty string
    and do not raise. *)
Theorem answer_nonempty
    (g : AIApp.Globals W) (question : str) (w : AIApp.world W) :
  (exists s w', AIApp.get_chatbot_answer g question w = (Ret s, w') /\ s <> [])
  /\ App.get_chatbot_answer question <> [].
Proof.
  split.
  - destruct (ai_answer_summary g question w) as (s & w' & Hrun & Hne & _). eauto.
  - apply app_answer_summary.
Qed.

End Matcher.

(** ** The fallback responder *)

Section Fallback.
Context `{UnicodeData} {W : Type}.
Import AIApp.

(** C6: on an unmatched question, when the backend is unavailable, raises
    at any step of the generation, or leaves only blank text after the
    prompt, the answer is the fixed default message: nothing is raised to
    the caller. *)
Theorem backend_failure_falls_back
    (g : Globals W) (question : str) (w : world W) :
  first_match keyword_table (lower question) = Unmatched ->
  (ai_model g = None \/ HF_AVAILABLE g = false
   \/ exists ai, ai_model g = Some ai /\ generation_fails ai question (hidden w)) ->
  exists w', get_chatbot_answer g question w = (Ret default_response, w').
Proof.
  intros Hu Hfail. rewrite (ai_unmatched g question w Hu).
  destruct (bool_decide (is_Some (ai_model g)) && HF_AVAILABLE g) eqn:Hcfg; [|eauto].
  apply andb_true_iff in Hcfg as [Hsome Hf]. apply bool_decide_eq_true in Hsome.
  destruct Hfail as [Hnone | [Hoff | (ai & Hm & Hgen)]].
  - rewrite Hnone in Hsome. destruct Hsome; discriminate.
  - congruence.
  - destruct (generate_fails g ai question w Hm Hf Hgen) as [w' [-> | ->]]; eauto.
Qed.


(** C8: the category selected for a question is a function of the question
    and the keyword table alone: asking twice, the second time in the state
    the first call left and even with another backend, selects the same
    category, and that category is the only one that wins on the lowered
    question; likewise for [app.py] and its table. *)
Theorem category_selection_deterministic
    (g g' : Globals W) (question : str) (w : world W) :
  exists s1 w1 s2 w2,
    get_chatbot_answer g question w = (Ret s1, w1)
    /\ get_chatbot_answer g' question w1 = (Ret s2, w2)
    /\ category_of s1 = category_of s2
    /\ (forall c, wins keyword_table c (lower question) <-> c = category_of s1)
    /\ (forall c, wins App.keyword_table c (lower question)
                  <-> c = App.category_of (App.get_chatbot_answer question)).
Proof.
  destruct (ai_answer_summary g question w) as (s1 & w1 & Hrun1 & _ & Hcat1).
  destruct (ai_answer_summary g' question w1) as (s2 & w2 & Hrun2 & _ & Hcat2).
  exists s1, w1, s2, w2. repeat split; try assumption; try congruence.
  - rewrite Hcat1. apply wins_first_match.
  - intros ->. rewrite Hcat1. apply first_match_wins.
  - destruct (app_answer_summary question) as [_ ->]. apply wins_first_match.
  - intros ->. destruct (app_answer_summary question) as [_ ->]. apply first_match_wins.
Qed.

(** C9: a question that contains a keyword of the table gets the template
    of its category, the backend is not called (its state and its log are
    as before), and the result is the same under any other configuration
    of the backend. *)
Theorem matched_input_ignores_backend
    (g g' : Globals W) (question keyword : str) (w : world W) :
  keyword ∈ concat (map snd keyword_table) ->
  contains keyword (lower question) = true ->
  first_match keyword_table (lower question) <> Unmatched
  /\ get_chatbot_answer g question w
     = (Ret (template (first_match keyword_table (lower question))), w)
  /\ get_chatbot_answer g' question w = get_chatbot_answer g question w.
Proof.
  intros Hin Hkw.
  assert (first_match keyword_table (lower question) <> Unmatched) as Hm.
  { eapply keyword_matches; [|exact Hin|exact Hkw].
    unfold keyword_table. repeat constructor; discriminate. }
  split; [exact Hm|]. rewrite !ai_matched by exact Hm. split; reflexivity.
Qed.

End Fallback.

(** ** The upload handler *)

Section Upload.
Context `{Pandas}.

(** C10: the upload handlers of both dashboards store the dataset under
    ['data'] only once the file has been parsed: when [read_csv] raises,
    the session state is what it was and the page gains the error message
    (and, in [AI_app.py], the tip); when it returns, the handler finishes
    and ['data'] holds the parsed dataset. *)
Theorem upload_atomic (file : UploadedFile) (s : St.script) :
  match read_csv file with
  | Raise e =>
      App.upload_tab (Some file) s
      = (Ret tt,
         {| St.session_state := St.session_state s;
            St.page := St.page s
              ++ [St.error (lit "Oops! There was a problem reading your file: " ++ exc_text e)] |})
      /\ AIApp.upload_handler (Some file) s
         = (Ret tt,
            {| St.session_state := St.session_state s;
               St.page := (St.page s
                 ++ [St.error (lit "❌ **Error processing file:** " ++ exc_text e)])
                 ++ [St.info (lit "💡 **Tip:** Make sure your file is a valid CSV with proper formatting.")] |})
  | Ret data =>
      (fst (App.upload_tab (Some file) s) = Ret tt
       /\ St.session_state (snd (App.upload_tab (Some file) s))
          = <[lit "data" := data]> (St.session_state s))
      /\ (fst (AIApp.upload_handler (Some file) s) = Ret tt
          /\ St.session_state (snd (AIApp.upload_handler (Some file) s))
             = <[lit "data" := data]> (St.session_state s))
  end.
Proof.
  unfold App.upload_tab, AIApp.upload_handler, try_except, bind, St.lift.
  destruct (read_csv file) as [data|e].
  - split; [split; reflexivity|].
    destruct (df_len data =? 0)%nat, (df_missing data =? 0)%nat; split; reflexivity.
  - split; reflexivity.
Qed.

End Upload.

(** ** Where [app.py] departs from the six categories and the fixed default *)

(** C1, as stated, fails on [app.py]: it has no branch for
    contact/phone/email (nor for emergency/crisis/urgent), so the answer to
    "How can I contact you?" stands for [Unmatched] where the six-category
    order gives [Contact]. *)
Lemma app_contact_is_unmatched :
  ~ (forall (U : UnicodeData) (question : str),
        App.category_of (App.get_chatbot_answer question)
        = first_match AIApp.keyword_table (lower question)).
Proof.
  intros Hclaim.
  specialize (Hclaim ascii_only (lit "How can I contact you?")).
  vm_compute in Hclaim. discriminate.
Qed.

(** C3, as stated, fails on [app.py]: two unmatched questions get two
    different replies, each quoting its own question. *)
Lemma app_default_quotes_question :
  ~ (forall (U : UnicodeData) (q1 q2 : str),
        first_match AIApp.keyword_table (lower q1) = Unmatched ->
        first_match AIApp.keyword_table (lower q2) = Unmatched ->
        App.get_chatbot_answer q1 = App.get_chatbot_answer q2).
Proof.
  intros Hclaim.
  specialize (Hclaim ascii_only (lit "Hello, how are you?") (lit "Good morning")).
  vm_compute in Hclaim. specialize (Hclaim eq_refl eq_refl). discriminate.
Qed.

(** C4, as stated, fails on [app.py]: no one message is its answer to all
    blank questions; a space and a tab get different replies. *)
Lemma app_blank_replies_differ :
  ~ (exists default : str,
        forall (U : UnicodeData) (question : str),
          forallb is_space question = true ->
          App.get_chatbot_answer question = default).
Proof.
  intros [default Hclaim].
  pose proof (Hclaim ascii_only [32] eq_refl) as Hspace.
  pose proof (Hclaim ascii_only [9] eq_refl) as Htab.
  rewrite <- Htab in Hspace. vm_compute in Hspace. discriminate.
Qed.

(** ** The theorems at work on concrete questions *)

Section Witnesses.
Import Fixtures.
#[local] Existing Instance ascii_only.

Lemma hours_take_priority_witness :
  contains_nocase (lit "hours") (lit "What are your volunteer hours?")
  || contains_nocase (lit "time") (lit "What are your volunteer hours?") = true
  /\ contains (lit "volunteer") (lower (lit "What are your volunteer hours?")) = true
  /\ App.get_chatbot_answer (lit "What are your volunteer hours?") = App.hours_template
  /\ AIApp.get_chatbot_answer rule_based (lit "What are your volunteer hours?") (fresh tt)
     = (Ret AIApp.hours_template, fresh tt).
Proof.
  split; [vm_compute; reflexivity|]. split; [vm_compute; reflexivity|].
  apply (hours_take_priority rule_based (lit "What are your volunteer hours?") (fresh tt)).
  vm_compute. reflexivity.
Defined.

Lemma unmatched_default_reply_witness :
  first_match AIApp.keyword_table (lower (lit "Hello, how are you?")) = Unmatched
  /\ AIApp.get_chatbot_answer rule_based (lit "Hello, how are you?") (fresh tt)
     = (Ret AIApp.default_response, fresh tt)
  /\ first_match App.keyword_table (lower (lit "How can I contact you?")) = Unmatched
  /\ App.get_chatbot_answer (lit "How can I contact you?")
     = App.unmatched_reply (lower (lit "How can I contact you?")).
Proof.
  split; [vm_compute; reflexivity|]. split.
  - apply (proj1 (unmatched_default_reply rule_based (lit "Hello, how are you?") (fresh tt))).
    + left. reflexivity.
    + vm_compute. reflexivity.
  - split; [vm_compute; reflexivity|].
    apply (proj2 (unmatched_default_reply (@rule_based unit)
                    (lit "How can I contact you?") (fresh tt))).
    vm_compute. reflexivity.
Defined.

Lemma blank_input_unmatched_witness :
  forallb is_space [32; 9; 160; 10] = true
  /\ first_match AIApp.keyword_table (lower [32; 9; 160; 10]) = Unmatched
  /\ first_match App.keyword_table (lower [32; 9; 160; 10]) = Unmatched
  /\ AIApp.get_chatbot_answer rule_based [32; 9; 160; 10] (fresh tt)
     = (Ret AIApp.default_response, fresh tt)
  /\ App.get_chatbot_answer [32; 9; 160; 10] = App.unmatched_reply [32; 9; 160; 10].
Proof.
  split; [vm_compute; reflexivity|].
  apply (blank_input_unmatched rule_based [32; 9; 160; 10] (fresh tt)).
  - vm_compute. reflexivity.
  - left. reflexivity.
Defined.

Lemma backend_failure_falls_back_witness :
  first_match AIApp.keyword_table (lower (lit "Hello, how are you?")) = Unmatched
  /\ AIApp.generation_fails {| AIApp.model := raising; AIApp.tokenizer := char_tokenizer |}
       (lit "Hello, how are you?") 0%nat
  /\ exists w',
       AIApp.get_chatbot_answer (with_model raising) (lit "Hello, how are you?") (fresh 0%nat)
       = (Ret AIApp.default_response, w').
Proof.
  assert (AIApp.generation_fails {| AIApp.model := raising; AIApp.tokenizer := char_tokenizer |}
            (lit "Hello, how are you?") 0%nat) as Hfails.
  { eapply AIApp.fails_generate; reflexivity. }
  split; [vm_compute; reflexivity|]. split; [exact Hfails|].
  apply (backend_failure_falls_back (with_model raising) (lit "Hello, how are you?")
           (fresh 0%nat)).
  - vm_compute. reflexivity.
  - right. right. eexists. split; [reflexivity | exact Hfails].
Defined.


Lemma matched_input_ignores_backend_witness :
  contains (lit "donate") (lower (lit "DONATE NOW")) = true
  /\ AIApp.get_chatbot_answer (with_model raising) (lit "DONATE NOW") (fresh 0%nat)
     = (Ret AIApp.donate_template, fresh 0%nat)
  /\ AIApp.get_chatbot_answer rule_based (lit "DONATE NOW") (fresh 0%nat)
     = AIApp.get_chatbot_answer (with_model raising) (lit "DONATE NOW") (fresh 0%nat).
Proof.
  split; [vm_compute; reflexivity|].
  destruct (matched_input_ignores_backend (with_model raising) rule_based
              (lit "DONATE NOW") (lit "donate") (fresh 0%nat)) as (_ & Hrun & Hsame).
  - unfold AIApp.keyword_table. cbn [map snd concat app].
    do 3 apply list_elem_of_further. apply list_elem_of_here.
  - vm_compute. reflexivity.
  - split; [|exact Hsame]. rewrite Hrun. vm_compute. reflexivity.
Defined.

End Witnesses.

(** ** More on strings: what [strip] leaves *)

Section StripFacts.

Lemma lstrip_unspaced (s : str) :
  match lstrip s with [] => True | c :: _ => is_space c = false end.
Proof.
  induction s as [|c s IH]; simpl; [exact I|].
  destruct (is_space c) eqn:Hc; [exact IH | exact Hc].
Qed.

Lemma lstrip_fixed (s : str) :
  match s with [] => True | c :: _ => is_space c = false end -> lstrip s = s.
Proof. destruct s as [|c s]; simpl; [reflexivity|]. intros ->. reflexivity. Qed.

(** [lstrip] only removes a run of white space from the front. *)
Lemma lstrip_split (s : str) :
  exists spaces, s = spaces ++ lstrip s /\ forallb is_space spaces = true.
Proof.
  induction s as [|c s (spaces & Hs & Hsp)]; simpl.
  - exists []. split; reflexivity.
  - destruct (is_space c) eqn:Hc.
    + exists (c :: spaces). simpl. rewrite Hc, Hsp. split; [congruence | reflexivity].
    + exists []. split; reflexivity.
Qed.

Lemma rstrip_split (s : str) :
  exists spaces, s = rstrip s ++ spaces /\ forallb is_space spaces = true.
Proof.
  unfold rstrip. destruct (lstrip_split (rev s)) as (spaces & Hs & Hsp).
  exists (rev spaces). split.
  - rewrite <- rev_app_distr, <- Hs, rev_involutive. reflexivity.
  - rewrite forallb_forall in *. intros c Hc. apply Hsp, in_rev, Hc.
Qed.

Lemma rstrip_fixed (s : str) :
  match rev s with [] => True | c :: _ => is_space c = false end -> rstrip s = s.
Proof. intros Hs. unfold rstrip. rewrite (lstrip_fixed _ Hs). apply rev_involutive. Qed.

(** A stripped text neither starts nor ends with white space. *)
Lemma strip_ends (s : str) :
  match strip s with [] => True | c :: _ => is_space c = false end
  /\ match rev (strip s) with [] => True | c :: _ => is_space c = false end.
Proof.
  split.
  - unfold strip. destruct (rstrip_split (lstrip s)) as (spaces & Hs & _).
    pose proof (lstrip_unspaced s) as Hhead. rewrite Hs in Hhead.
    destruct (rstrip (lstrip s)); [exact I | exact Hhead].
  - unfold strip, rstrip. rewrite rev_involutive. apply lstrip_unspaced.
Qed.

Lemma strip_fixed (s : str) :
  match s with [] => True | c :: _ => is_space c = false end ->
  match rev s with [] => True | c :: _ => is_space c = false end ->
  strip s = s.
Proof. intros Hhead Hlast. unfold strip. rewrite (lstrip_fixed s Hhead). apply rstrip_fixed, Hlast. Qed.

(** The display cut keeps a stripped text stripped. *)
Lemma clip_strip_fixed (s : str) : strip (AIApp.clip (strip s)) = AIApp.clip (strip s).
Proof.
  destruct (strip_ends s) as [Hhead Hlast].
  unfold AIApp.clip. destruct (Nat.ltb_spec 200 (length (strip s))) as [Hlen|Hlen].
  - assert (lit "..." = [46; 46; 46]) as -> by (vm_compute; reflexivity).
    apply strip_fixed.
    + destruct (strip s) as [|c t]; [simpl in Hlen; lia | exact Hhead].
    + rewrite rev_app_distr. reflexivity.
  - apply strip_fixed; assumption.
Qed.

End StripFacts.

(** ** More on the fallback generator *)

Section GenerationLog.
Context {W : Type} (g : AIApp.Globals W).
Import AIApp.

Lemma generate_some (question : str) (w w' : world W) (response : str) :
  generate_ai_response g question w = (Ret (Some response), w') ->
  bool_decide (is_Some (ai_model g)) && HF_AVAILABLE g = true
  /\ exists text, response = clip (strip text).
Proof.
  intros Hrun.
  destruct (ai_model g) as [ai|] eqn:Hm;
    [|rewrite generate_unavailable in Hrun by auto; discriminate].
  destruct (HF_AVAILABLE g) eqn:Hf;
    [|rewrite generate_unavailable in Hrun by auto; discriminate].
  split; [reflexivity|].
  rewrite (generate_run g ai) in Hrun by assumption.
  destruct (eos_token (tokenizer ai)) as [eos|]; [|discriminate].
  cbv zeta in Hrun.
  destruct (encode _ _ _) as [[inputs|e1] h1]; [|discriminate].
  destruct (generate _ _ _ _) as [[[|first others]|e2] h2]; try discriminate.
  destruct (decode _ _ _) as [[out|e3] h3]; [|discriminate].
  injection Hrun as <- _. eauto.
Qed.

Lemma generate_log (ai : AiModel W) (question : str) (w : world W) :
  ai_model g = Some ai -> HF_AVAILABLE g = true ->
  exists new,
    one_run ai question new
    /\ trace (snd (generate_ai_response g question w)) = trace w ++ new.
Proof.
  intros Hm Hf. rewrite (generate_run g ai) by assumption.
  destruct (eos_token (tokenizer ai)) as [eos|] eqn:He.
  2:{ exists []. split; [apply run_no_eos, He | rewrite app_nil_r; reflexivity]. }
  cbv zeta.
  destruct (encode _ _ _) as [[inputs|e1] h1].
  2:{ eexists. split; [eapply run_encode_raised, He | reflexivity]. }
  destruct (generate _ _ _ _) as [[[|first others]|e2] h2].
  - eexists. split; [eapply run_no_sequence, He|]. cbn [snd trace].
    rewrite <- app_assoc. reflexivity.
  - destruct (decode _ _ _) as [[out|e3] h3];
      (eexists; split; [eapply run_decoded, He|]; cbn [snd trace];
       rewrite <- !app_assoc; reflexivity).
  - eexists. split; [eapply run_generate_raised, He|]. cbn [snd trace].
    rewrite <- app_assoc. reflexivity.
Qed.

(** X3: a text that comes back from the fallback generator has no white
    space at either end: stripping it again changes nothing, also after the
    cut to 200 characters. *)
Theorem generated_text_is_stripped (question : str) (w w' : world W) (response : str) :
  generate_ai_response g question w = (Ret (Some response), w') ->
  strip response = response.
Proof.
  intros Hrun. destruct (generate_some _ _ _ _ Hrun) as [_ [text ->]].
  apply clip_strip_fixed.
Qed.

Context `{UnicodeData}.

(** X4: on an unmatched question, every non-empty text the fallback
    generator returns is shown, wrapped in the assistant reply: the second
    test of line 135 never turns one down. *)
Theorem generated_reply_is_shown (question : str) (w w' : world W) (response : str) :
  first_match keyword_table (lower question) = Unmatched ->
  generate_ai_response g question w = (Ret (Some response), w') ->
  response <> [] ->
  get_chatbot_answer g question w = (Ret (ai_reply response), w').
Proof.
  intros Hu Hrun Hne. rewrite (ai_unmatched g question w Hu), Hrun.
  destruct (generate_some _ _ _ _ Hrun) as [-> [text ->]].
  rewrite clip_strip_fixed.
  destruct (clip (strip text)) as [|c t]; [contradiction | reflexivity].
Qed.

(** X5: one question costs at most one run of the backend.  Either the world
    is left as it was, or the question is unmatched, the backend is
    configured, and the log grows by the calls of a single run: at most one
    [encode] of the context, the question as typed and the end-of-sequence
    token, one [generate] with the fixed keyword arguments, one [decode]. *)
Theorem backend_call_discipline (question : str) (w : world W) :
  snd (get_chatbot_answer g question w) = w
  \/ (first_match keyword_table (lower question) = Unmatched
      /\ exists ai new,
           ai_model g = Some ai /\ HF_AVAILABLE g = true
           /\ one_run ai question new
           /\ trace (snd (get_chatbot_answer g question w)) = trace w ++ new).
Proof.
  destruct (decide (first_match keyword_table (lower question) = Unmatched)) as [Hu|Hm].
  2:{ left. rewrite ai_matched by exact Hm. reflexivity. }
  rewrite (ai_unmatched g question w Hu).
  destruct (ai_model g) as [ai|] eqn:Hai; [|left; reflexivity].
  destruct (HF_AVAILABLE g) eqn:Hf; [|left; rewrite andb_false_r; reflexivity].
  right. split; [exact Hu|]. exists ai.
  destruct (generate_log ai question w Hai Hf) as (new & Hnew & Htrace).
  exists new. repeat split; try assumption.
  assert (bool_decide (is_Some (Some ai)) = true) as -> by (apply bool_decide_eq_true; eauto).
  cbn [andb]. rewrite <- Htrace.
  destruct (generate_ai_response g question w) as [[[a|]|e] w1]; try reflexivity.
  destruct (truthy a && _); reflexivity.
Qed.

End GenerationLog.

(** ** More on the intent matcher *)

Section MatcherMore.
Context `{UnicodeData} {W : Type}.

Lemma ai_keywords_ascii (keyword : str) :
  keyword ∈ concat (map snd AIApp.keyword_table) ->
  Forall (fun k => k < 128) keyword.
Proof.
  intros Hin.
  assert (forallb (forallb (fun k => k <? 128)) (concat (map snd AIApp.keyword_table)) = true)
    as Hall by (vm_compute; reflexivity).
  rewrite forallb_forall in Hall. apply list_elem_of_In, Hall in Hin.
  rewrite forallb_forall in Hin. apply Forall_forall. intros k Hk.
  apply N.ltb_lt, Hin, list_elem_of_In, Hk.
Qed.

Lemma app_keywords_among_ai (keyword : str) :
  keyword ∈ concat (map snd App.keyword_table) ->
  keyword ∈ concat (map snd AIApp.keyword_table).
Proof.
  unfold App.keyword_table, AIApp.keyword_table. cbn [map snd concat app].
  intros Hin. rewrite !elem_of_cons in *. tauto.
Qed.

(** X1: letter case never matters for a keyword.  A question that has any
    keyword of the table in it, in whatever mix of ASCII capitals, gets a
    template from [AI_app.py] and leaves the backend alone; when the keyword
    is one of [app.py]'s, [app.py] answers with a template too. *)
Theorem keyword_in_any_case_matches
    (g : AIApp.Globals W) (question keyword : str) (w : AIApp.world W) :
  keyword ∈ concat (map snd AIApp.keyword_table) ->
  contains_nocase keyword question = true ->
  first_match AIApp.keyword_table (lower question) <> Unmatched
  /\ AIApp.get_chatbot_answer g question w
     = (Ret (AIApp.template (first_match AIApp.keyword_table (lower question))), w)
  /\ (keyword ∈ concat (map snd App.keyword_table) ->
      App.category_of (App.get_chatbot_answer question) <> Unmatched).
Proof.
  intros Hin Hq.
  assert (contains keyword (lower question) = true) as Hc
      by (apply contains_lower; [apply ai_keywords_ascii, Hin | exact Hq]).
  assert (first_match AIApp.keyword_table (lower question) <> Unmatched) as Hm.
  { eapply keyword_matches; [|exact Hin|exact Hc].
    unfold AIApp.keyword_table. repeat constructor; discriminate. }
  split; [exact Hm|]. split; [apply ai_matched, Hm|].
  intros Happ. destruct (app_answer_summary question) as [_ ->].
  eapply keyword_matches; [|exact Happ|exact Hc].
  unfold App.keyword_table. repeat constructor; discriminate.
Qed.

Lemma app_table_collapses (text : str) :
  first_match App.keyword_table text
  = match first_match AIApp.keyword_table text with
    | Contact | Emergency => Unmatched
    | c => c
    end.
Proof.
  unfold AIApp.keyword_table, App.keyword_table. cbn [first_match].
  repeat match goal with
         | |- context [matches ?k text] => destruct (matches k text); try reflexivity
         end.
Qed.

(** X2: the two dashboards never disagree on the four categories they
    share.  The category of [app.py]'s answer is the category of
    [AI_app.py]'s answer, except that what [AI_app.py] files under contact
    or emergency is unmatched for [app.py]. *)
Theorem app_agrees_with_ai (g : AIApp.Globals W) (question : str) (w : AIApp.world W) :
  exists s w',
    AIApp.get_chatbot_answer g question w = (Ret s, w')
    /\ App.category_of (App.get_chatbot_answer question)
       = match AIApp.category_of s with
         | Contact | Emergency => Unmatched
         | c => c
         end.
Proof.
  destruct (ai_answer_summary g question w) as (s & w' & Hrun & _ & Hcat).
  exists s, w'. split; [exact Hrun|].
  destruct (app_answer_summary question) as [_ ->].
  rewrite Hcat. apply app_table_collapses.
Qed.

End MatcherMore.

(** ** More on the upload handlers *)

Section UploadMore.
Context `{Pandas}.

(** X6: a file that parses to a frame without rows is reported twice by
    [AI_app.py]: first as an error (the file appears to be empty), then as
    processed successfully; and it is stored under ['data'] all the same. *)
Theorem empty_file_is_stored (file : UploadedFile) (data : DataFrame) (s : St.script) :
  read_csv file = Ret data ->
  df_len data = 0%nat ->
  exists rest,
    AIApp.upload_handler (Some file) s
    = (Ret tt,
       {| St.session_state := <[lit "data" := data]> (St.session_state s);
          St.page := St.page s
            ++ St.error (lit "❌ The file appears to be empty. Please check your CSV file.")
            :: St.success (lit "✅ **File processed successfully!**")
            :: rest |}).
Proof.
  intros Hparse Hlen.
  unfold AIApp.upload_handler, try_except, bind, St.lift. rewrite Hparse, Hlen.
  cbn [Nat.eqb]. unfold St.show, St.session_set. cbn [St.session_state St.page].
  destruct (df_missing data =? 0)%nat; cbn [St.session_state St.page];
    rewrite <- !app_assoc; cbn [app]; eexists; reflexivity.
Qed.

(** X7: whatever is uploaded, and whether or not it parses, the upload
    handlers of both dashboards touch no session key other than ['data'] and
    only add to the page. *)
Theorem upload_touches_only_data (uploaded_file : option UploadedFile) (s : St.script) :
  (forall key, key <> lit "data" ->
     St.session_state (snd (App.upload_tab uploaded_file s)) !! key
     = St.session_state s !! key)
  /\ (exists new, St.page (snd (App.upload_tab uploaded_file s)) = St.page s ++ new)
  /\ (forall key, key <> lit "data" ->
        St.session_state (snd (AIApp.upload_handler uploaded_file s)) !! key
        = St.session_state s !! key)
  /\ (exists new, St.page (snd (AIApp.upload_handler uploaded_file s)) = St.page s ++ new).
Proof.
  unfold App.upload_tab, AIApp.upload_handler, try_except, bind, St.lift, ret.
  destruct uploaded_file as [file|].
  - destruct (read_csv file) as [data|e].
    + destruct (df_len data =? 0)%nat, (df_missing data =? 0)%nat;
        cbn [snd St.show St.session_set St.session_state St.page];
        (repeat split;
         [ intros key Hkey; apply lookup_insert_ne; congruence
         | rewrite <- !app_assoc; eexists; reflexivity
         | intros key Hkey; apply lookup_insert_ne; congruence
         | rewrite <- !app_assoc; eexists; reflexivity ]).
    + cbn [snd St.show St.session_state St.page].
      repeat split; try (rewrite <- ?app_assoc; eexists; reflexivity).
  - cbn [snd St.show St.session_state St.page].
    repeat split; try (rewrite <- ?app_assoc; eexists; reflexivity).
    exists []. rewrite app_nil_r. reflexivity.
Qed.

End UploadMore.

(** ** Loading the model *)

Section Loading.
Import AIApp.
Context {W : Type} `{!Hub W}.

Lemma load_ai_model_run (hf_available : bool) (s : St.script) :
  load_ai_model hf_available s
  = if hf_available then
      match tokenizer_from_pretrained (lit "microsoft/DialoGPT-medium") with
      | Raise e =>
          (Ret None,
           {| St.session_state := St.session_state s;
              St.page := St.page s
                ++ [St.error (lit "Error loading AI model: " ++ exc_text e)] |})
      | Ret tok =>
          match model_from_pretrained (lit "microsoft/DialoGPT-medium") with
          | Raise e =>
              (Ret None,
               {| St.session_state := St.session_state s;
                  St.page := St.page s
                    ++ [St.error (lit "Error loading AI model: " ++ exc_text e)] |})
          | Ret m =>
              (Ret (Some {| loaded_model := m;
                            loaded_tokenizer :=
                              match pad_token tok with
                              | None => {| pad_token := eos_token (as_tokenizer tok);
                                           as_tokenizer := as_tokenizer tok |}
                              | Some _ => tok
                              end |}), s)
          end
      end
    else (Ret None, s).
Proof.
  unfold load_ai_model. destruct hf_available; [|reflexivity].
  cbn [negb]. unfold try_except, bind, St.lift, ret, St.show.
  destruct (tokenizer_from_pretrained _) as [tok|e]; [|reflexivity].
  destruct (model_from_pretrained _) as [m|e]; reflexivity.
Qed.

(** X8: loading the model never raises and never touches the session
    state.  It gives nothing exactly when the transformers library is
    missing (and then the page is left as it is) or when one of the two
    loaders raises (and then the page gains one error line with the
    message); a model is given only when the library is there and both
    loaders returned, with the page left as it is. *)
Theorem load_ai_model_outcome (hf_available : bool) (s : St.script) :
  exists result s',
    load_ai_model hf_available s = (Ret result, s')
    /\ St.session_state s' = St.session_state s
    /\ match result with
       | Some loaded =>
           hf_available = true /\ s' = s
           /\ (exists tok,
                 tokenizer_from_pretrained (lit "microsoft/DialoGPT-medium") = Ret tok)
           /\ model_from_pretrained (lit "microsoft/DialoGPT-medium")
              = Ret (loaded_model loaded)
       | None =>
           (hf_available = false /\ s' = s)
           \/ (hf_available = true
               /\ exists e,
                    (tokenizer_from_pretrained (lit "microsoft/DialoGPT-medium") = Raise e
                     \/ model_from_pretrained (lit "microsoft/DialoGPT-medium") = Raise e)
                    /\ St.page s'
                       = St.page s ++ [St.error (lit "Error loading AI model: " ++ exc_text e)])
       end.
Proof.
  rewrite load_ai_model_run. destruct hf_available.
  2:{ eexists _, _. split; [reflexivity|]. split; [reflexivity|]. left. auto. }
  destruct (tokenizer_from_pretrained _) as [tok|e].
  2:{ eexists _, _. split; [reflexivity|]. split; [reflexivity|]. right. eauto. }
  destruct (model_from_pretrained _) as [m|e].
  - eexists _, _. split; [reflexivity|]. split; [reflexivity|]. eauto 6.
  - eexists _, _. split; [reflexivity|]. split; [reflexivity|]. right. eauto.
Qed.

(** X9: a loaded tokenizer is the one the hub gave, with its padding token
    kept when it had one and set to its end-of-sequence token when it had
    none; so it lacks a padding token only if it lacks an end-of-sequence
    token too. *)
Theorem loaded_tokenizer_is_padded
    (hf_available : bool) (s s' : St.script) (loaded : LoadedModel W) :
  load_ai_model hf_available s = (Ret (Some loaded), s') ->
  exists tok,
    tokenizer_from_pretrained (lit "microsoft/DialoGPT-medium") = Ret tok
    /\ as_tokenizer (loaded_tokenizer loaded) = as_tokenizer tok
    /\ pad_token (loaded_tokenizer loaded)
       = match pad_token tok with
         | Some p => Some p
         | None => eos_token (as_tokenizer tok)
         end
    /\ (pad_token (loaded_tokenizer loaded) = None ->
        eos_token (as_tokenizer (loaded_tokenizer loaded)) = None).
Proof.
  rewrite load_ai_model_run. destruct hf_available; [|discriminate].
  destruct (tokenizer_from_pretrained _) as [tok|e]; [|discriminate].
  destruct (model_from_pretrained _) as [m|e]; [|discriminate].
  intros Hrun. injection Hrun as <- _. exists tok. cbn [loaded_tokenizer].
  destruct (pad_token tok) as [p|] eqn:Hp; cbn [pad_token as_tokenizer].
  - rewrite Hp. repeat split. discriminate.
  - repeat split. auto.
Qed.

Context `{UnicodeData}.

(** X10: the names the answer function reads, as line 105 leaves them.  A
    model is there only if the library is; and when no model is there
    (library missing, or a loader raised) every question is answered by the
    rules alone: the backend is left as it was, and an unmatched question
    gets the default message. *)
Theorem failed_load_is_rule_based
    (hf_available : bool) (s s' : St.script) (g : Globals W) :
  module_globals hf_available s = (Ret g, s') ->
  HF_AVAILABLE g = hf_available
  /\ (is_Some (ai_model g) -> HF_AVAILABLE g = true)
  /\ (ai_model g = None ->
      forall question (w : world W),
        snd (get_chatbot_answer g question w) = w
        /\ (first_match keyword_table (lower question) = Unmatched ->
            fst (get_chatbot_answer g question w) = Ret default_response)).
Proof.
  unfold module_globals, bind, ret. rewrite load_ai_model_run.
  intros Hrun.
  assert (HF_AVAILABLE g = hf_available /\ (is_Some (ai_model g) -> hf_available = true))
    as [Hhf Hsome].
  { destruct hf_available.
    - destruct (tokenizer_from_pretrained _); [destruct (model_from_pretrained _)|];
        injection Hrun as <- _; auto.
    - injection Hrun as <- _. split; [reflexivity|]. intros [x Hx]. discriminate. }
  split; [exact Hhf|]. split; [rewrite Hhf; exact Hsome|].
  intros Hnone question w.
  destruct (decide (first_match keyword_table (lower question) = Unmatched)) as [Hu|Hm].
  - rewrite (ai_unmatched g question w Hu), Hnone. cbn. auto.
  - rewrite (ai_matched g question w Hm). cbn. split; [reflexivity | contradiction].
Qed.

End Loading.

(** ** The chatbot tabs *)

Section ChatbotTabs.
Import AIApp.
Context `{UnicodeData} {W : Type}.


(** X12: pressing the ask button of [AI_app.py] never raises, leaves the
    session state alone and adds exactly one widget: the warning when the
    question is empty, else the answer of [get_chatbot_answer], never empty,
    in its box. *)
Theorem ask_column_outcome
    (g : Globals W) (user_question : str) (w : world W) (s : St.script) :
  exists w' shown,
    ask_column g user_question true (w, s)
    = (Ret tt, (w', {| St.session_state := St.session_state s;
                       St.page := St.page s ++ [shown] |}))
    /\ (user_question = [] ->
        w' = w /\ shown = St.warning (lit "⚠️ Please type a question first!"))
    /\ (user_question <> [] ->
        exists answer,
          get_chatbot_answer g user_question w = (Ret answer, w')
          /\ answer <> []
          /\ shown = St.markdown (answer_box answer)).
Proof.
  unfold ask_column. destruct user_question as [|c q]; cbn [truthy].
  - exists w. eexists. split; [reflexivity|]. split; [auto | contradiction].
  - destruct (ai_answer_summary g (c :: q) w) as (answer & w' & Hrun & Hne & _).
    exists w'. eexists. unfold bind, on_backend, on_page. rewrite Hrun.
    split; [reflexivity|]. split; [discriminate|]. eauto.
Qed.

(** X13: the status line tells the truth about the backend.  When it reads
    rule-based mode, no question asked through the button reaches the
    backend; when it reads that the model is active, the backend is
    configured and its library available. *)
Theorem status_line_is_honest (g : Globals W) (s0 : St.script) :
  (St.page (snd (ai_status g s0))
   = St.page s0
     ++ [St.info (lit "🔧 **Rule-based Mode:** Install AI libraries for enhanced responses")]
   /\ forall user_question ask (w : world W) (s : St.script),
        fst (snd (ask_column g user_question ask (w, s))) = w)
  \/ (St.page (snd (ai_status g s0))
      = St.page s0
        ++ [St.success (lit "🤖 **AI Model Active:** Enhanced conversational responses available")]
      /\ is_Some (ai_model g) /\ HF_AVAILABLE g = true).
Proof.
  unfold ai_status.
  destruct (HF_AVAILABLE g) eqn:Hf; cbn [andb].
  - destruct (ai_model g) as [ai|] eqn:Hm.
    + right. split; [reflexivity | eauto].
    + left. split; [reflexivity|]. intros q ask w s.
      unfold ask_column. destruct ask; [|reflexivity].
      destruct (truthy q); [|reflexivity].
      unfold bind, on_backend, on_page.
      destruct (backend_untouched g q w) as [a Ha]; [auto|]. rewrite Ha. reflexivity.
  - left. split; [reflexivity|]. intros q ask w s.
    unfold ask_column. destruct ask; [|reflexivity].
    destruct (truthy q); [|reflexivity].
    unfold bind, on_backend, on_page.
    destruct (backend_untouched g q w) as [a Ha]; [auto|]. rewrite Ha. reflexivity.
Qed.

End ChatbotTabs.

(** ** The data tab and the sidebar *)

Section DataTab.
Import AIApp.
Context `{Pandas}.

(** X14: every row the sample generator builds is complete: its six cells
    are all present, the age lies between 15 and 74, the program and the
    status come from the two fixed lists, and the join date is the 15th of
    one of the months 01 to 09.  The generated frame has 20 such rows and no
    missing value. *)
Theorem sample_rows_are_complete (i : nat) :
  (exists age month program status,
      sample_participant i
      = [ Some (str_of_nat (i + 1));
          Some (lit "Participant " ++ str_of_nat (i + 1));
          Some (str_of_nat age);
          Some program;
          Some status;
          Some (lit "2024-0" ++ str_of_nat month ++ lit "-15") ]
      /\ (15 <= age <= 74)%nat /\ (1 <= month <= 9)%nat
      /\ program ∈ programs /\ status ∈ statuses)
  /\ df_len sample_participants = 20%nat
  /\ df_missing sample_participants = 0%nat.
Proof.
  split; [|split; vm_compute; reflexivity].
  assert (is_Some (programs !! (i mod length programs)%nat)) as [program Hp].
  { apply lookup_lt_is_Some. apply Nat.mod_upper_bound. discriminate. }
  assert (is_Some (statuses !! (i mod length statuses)%nat)) as [status Hs].
  { apply lookup_lt_is_Some. apply Nat.mod_upper_bound. discriminate. }
  exists (15 + (i * 3) mod 60)%nat, (i mod 9 + 1)%nat, program, status.
  unfold sample_participant. unfold str in *. rewrite Hp, Hs.
  pose proof (Nat.mod_upper_bound (i * 3) 60). pose proof (Nat.mod_upper_bound i 9).
  repeat split; try lia.
  - eapply list_elem_of_lookup_2, Hp.
  - eapply list_elem_of_lookup_2, Hs.
Qed.

Lemma upload_handler_returns (uploaded_file : option UploadedFile) (s : St.script) :
  exists new,
    upload_handler uploaded_file s
    = (Ret tt,
       {| St.session_state :=
            match uploaded_file with
            | Some file =>
                match read_csv file with
                | Ret data => <[lit "data" := data]> (St.session_state s)
                | Raise _ => St.session_state s
                end
            | None => St.session_state s
            end;
          St.page := St.page s ++ new |}).
Proof.
  unfold upload_handler, try_except, bind, St.lift, ret.
  destruct uploaded_file as [file|].
  - destruct (read_csv file) as [data|e].
    + destruct (df_len data =? 0)%nat, (df_missing data =? 0)%nat;
        unfold St.show, St.session_set; cbn [St.session_state St.page];
        rewrite <- !app_assoc; eexists; reflexivity.
    + unfold St.show. cbn [St.session_state St.page].
      rewrite <- !app_assoc. eexists. reflexivity.
  - exists []. rewrite app_nil_r. destruct s. reflexivity.
Qed.

Lemma data_tab_run
    (uploaded_file : option UploadedFile) (generate_pressed : bool) (s : St.script) :
  fst (data_tab uploaded_file generate_pressed s) = Ret tt
  /\ St.session_state (snd (data_tab uploaded_file generate_pressed s)) !! lit "data"
     = (if generate_pressed then Some sample_participants
        else match uploaded_file with
             | Some file =>
                 match read_csv file with
                 | Ret data => Some data
                 | Raise _ => St.session_state s !! lit "data"
                 end
             | None => St.session_state s !! lit "data"
             end)
  /\ (last (St.page (snd (data_tab uploaded_file generate_pressed s)))
      = Some (St.info (lit "📤 **Ready to upload!** Choose a CSV file above to get started with data analysis."))
      <-> St.session_state (snd (data_tab uploaded_file generate_pressed s)) !! lit "data"
          = None).
Proof.
  unfold data_tab, bind, St.show.
  cbn [St.session_state St.page].
  match goal with
  | |- context [upload_handler uploaded_file ?s1] =>
      destruct (upload_handler_returns uploaded_file s1) as [new ->]
  end.
  cbn [St.session_state St.page].
  set (stored := match uploaded_file with
                 | Some file => match read_csv file with
                                | Ret data => <[lit "data" := data]> (St.session_state s)
                                | Raise _ => St.session_state s
                                end
                 | None => St.session_state s
                 end).
  assert (stored !! lit "data"
          = match uploaded_file with
            | Some file => match read_csv file with
                           | Ret data => Some data
                           | Raise _ => St.session_state s !! lit "data"
                           end
            | None => St.session_state s !! lit "data"
            end) as Hstored.
  { subst stored. destruct uploaded_file as [file|]; [|reflexivity].
    destruct (read_csv file); [apply lookup_insert_eq | reflexivity]. }
  rewrite <- Hstored. clearbody stored. clear Hstored.
  unfold session_lookup, St.session_set, ret.
  destruct generate_pressed; cbn [St.session_state St.page].
  - rewrite lookup_insert_eq. cbn [fst snd St.session_state St.page].
    rewrite lookup_insert_eq, last_snoc.
    split; [reflexivity|]. split; [reflexivity|]. split; discriminate.
  - destruct (stored !! lit "data") as [d|] eqn:Hd; cbn [fst snd St.session_state St.page].
    + rewrite Hd, last_snoc.
      split; [reflexivity|]. split; [reflexivity|]. split; discriminate.
    + rewrite Hd, last_snoc.
      split; [reflexivity|]. split; [reflexivity|]. split; reflexivity.
Qed.

(** X15: one run of the data tab never raises.  Pressing the sample-data
    button wins over an upload of the same run: ['data'] then holds the
    sample frame.  Otherwise ['data'] holds the parsed upload, or what it
    held before when nothing was uploaded or parsing failed.  The tab ends
    with the invitation to upload exactly when ['data'] is still absent. *)
Theorem data_tab_outcome
    (uploaded_file : option UploadedFile) (generate_pressed : bool) (s : St.script) :
  fst (data_tab uploaded_file generate_pressed s) = Ret tt
  /\ St.session_state (snd (data_tab uploaded_file generate_pressed s)) !! lit "data"
     = (if generate_pressed then Some sample_participants
        else match uploaded_file with
             | Some file =>
                 match read_csv file with
                 | Ret data => Some data
                 | Raise _ => St.session_state s !! lit "data"
                 end
             | None => St.session_state s !! lit "data"
             end)
  /\ (last (St.page (snd (data_tab uploaded_file generate_pressed s)))
      = Some (St.info (lit "📤 **Ready to upload!** Choose a CSV file above to get started with data analysis."))
      <-> St.session_state (snd (data_tab uploaded_file generate_pressed s)) !! lit "data"
          = None).
Proof. apply data_tab_run. Qed.

(** X16: what the sidebar of a later run says about the data.  After an
    upload that parsed, it reports the number of rows of the parsed file;
    after one that failed, it reports what the session held before: that
    number of rows, or no data loaded.  The sidebar itself changes
    nothing in the session state. *)
Theorem sidebar_reports_upload (file : UploadedFile) (s : St.script) :
  let after_upload :=
    {| St.session_state := St.session_state (snd (upload_handler (Some file) s));
       St.page := [] |} in
  St.page (snd (sidebar after_upload)) !! 4%nat
  = Some (St.info (lit "📄 Data: " ++
            match read_csv file with
            | Ret data => str_of_nat (df_len data) ++ lit " records loaded"
            | Raise _ =>
                match St.session_state s !! lit "data" with
                | Some before => str_of_nat (df_len before) ++ lit " records loaded"
                | None => lit "No data loaded"
                end
            end))
  /\ length (St.page (snd (sidebar after_upload))) = 8%nat
  /\ St.session_state (snd (sidebar after_upload)) = St.session_state after_upload.
Proof.
  destruct (upload_handler_returns (Some file) s) as [new ->].
  cbn [snd St.session_state St.page].
  unfold sidebar, bind, session_lookup, St.show. cbn [fst snd St.session_state St.page app].
  destruct (read_csv file) as [data|e].
  - rewrite lookup_insert_eq. repeat split.
  - destruct (St.session_state s !! lit "data"); repeat split.
Qed.

End DataTab.

(** ** The charts tabs *)

Section ChartsTabs.
Import Charts.
Context `{Stats} `{Plotly}.

Lemma preserves_ret {A} (a : A) : preserves_session (ret a).
Proof. intros v. reflexivity. Qed.

Lemma preserves_raise {A} (e : exception) : preserves_session (@raise view A e).
Proof. intros v. reflexivity. Qed.

Lemma preserves_show (e : element) : preserves_session (show e).
Proof. intros v. reflexivity. Qed.

Lemma preserves_lift {A} (r : res A) : preserves_session (lift r).
Proof. intros v. reflexivity. Qed.

Lemma preserves_lookup (key : str) : preserves_session (session_lookup key).
Proof. intros v. reflexivity. Qed.

Lemma preserves_bind {A B} (m : M view A) (k : A -> M view B) :
  preserves_session m -> (forall a, preserves_session (k a)) ->
  preserves_session (bind m k).
Proof.
  intros Hm Hk v. unfold bind. specialize (Hm v).
  destruct (m v) as [[a|e] v1]; cbn [snd] in *; [|exact Hm].
  rewrite (Hk a v1). exact Hm.
Qed.

Ltac preserves :=
  repeat first
    [ apply preserves_bind; [|intros ?]
    | apply preserves_show | apply preserves_ret | apply preserves_raise
    | apply preserves_lift | apply preserves_lookup
    | match goal with
      | |- preserves_session (match ?x with _ => _ end) => destruct x
      end ].

(** X17: the charts tabs only read.  Whatever is selected and whatever is
    stored, and whether the tab finishes or an exception of pandas ends it,
    the session state after the tab is the session state before it. *)
Theorem charts_tabs_only_read (selection : option str) (v : view) :
  session_state (snd (app_charts_tab selection v)) = session_state v
  /\ session_state (snd (ai_charts_tab selection v)) = session_state v.
Proof.
  split; revert v; fold (preserves_session (app_charts_tab selection));
    fold (preserves_session (ai_charts_tab selection));
    unfold app_charts_tab, ai_charts_tab, quick_stats; preserves.
Qed.

(** X18: with nothing stored under ['data'] the charts tabs ask for an
    upload and finish, whatever the select box holds: no column is looked
    up and no mean taken.  [AI_app.py] adds its sample chart. *)
Theorem charts_without_data (selection : option str) (v : view) :
  session_state v !! lit "data" = None ->
  app_charts_tab selection v
  = (Ret tt,
     {| session_state := session_state v;
        page := (page v ++ [widget (St.write (lit "### 📈 Data Visualization"))])
          ++ [widget (St.info (lit "📤 Please upload data in the 'Data Upload' tab first!"))] |})
  /\ ai_charts_tab selection v
     = (Ret tt,
        {| session_state := session_state v;
           page := (((page v ++ [widget (St.write (lit "### 📈 Data Visualizations"))])
             ++ [widget (St.info (lit "📤 Please upload data in the 'Data Upload' tab first!"))])
             ++ [widget (St.write (lit "**Here's what your charts will look like:**"))])
             ++ [plotly_chart
                   (bar_of_frame sample_chart_data (lit "Program") (lit "Participants")
                      (lit "Sample: Participants by Program"))] |}).
Proof.
  intros Hnone.
  unfold app_charts_tab, ai_charts_tab, bind, session_lookup, show.
  cbn [session_state page]. rewrite Hnone. split; reflexivity.
Qed.

Lemma column_found (data : DataFrame) (name : str) :
  name ∈ columns data ->
  exists values, column data name = Ret values /\ length values = df_len data.
Proof.
  intros Hin. unfold column.
  destruct (list_find (fun c => c = name) (columns data)) as [[i c]|] eqn:Hfind.
  - eexists. split; [reflexivity|]. rewrite length_map. reflexivity.
  - apply list_find_None in Hfind. rewrite Forall_forall in Hfind.
    exfalso. exact (Hfind name Hin eq_refl).
Qed.

(** The three metrics: what they add to the page when the mean, if one is
    taken, is there. *)
Lemma quick_stats_run (data : DataFrame) (v : view) :
  (forall ages, column data (lit "Age") = Ret ages -> exists m, mean ages = Ret m) ->
  exists second third,
    quick_stats data v
    = (Ret tt,
       {| session_state := session_state v;
          page := page v
            ++ [ widget (St.write (lit "**Quick Stats:**"));
                 widget (St.metric (lit "Total Records") (St.Count (df_len data)));
                 second; third ] |})
    /\ (forall status, column data (lit "Status") = Ret status ->
        lit "Status" ∈ columns data ->
        second = widget (St.metric (lit "Completed")
                   (St.Count (length (filter (fun cell => cell = Some (lit "Completed")) status)))))
    /\ (lit "Status" ∉ columns data ->
        second = widget (St.metric (lit "Columns") (St.Count (length (columns data))))).
Proof.
  intros Hmean. unfold quick_stats, bind, show, lift. cbn [session_state page].
  assert (exists third : element,
             forall v1 : view,
               (if bool_decide (lit "Age" ∈ columns data)
                then fun s : view =>
                       match column data (lit "Age") with
                       | Ret ages =>
                           match mean ages with
                           | Ret avg_age =>
                               (Ret tt,
                                {| session_state := session_state s;
                                   page := page s ++ [years_metric (lit "Average Age") avg_age] |})
                           | Raise e => (Raise e, s)
                           end
                       | Raise e => (Raise e, s)
                       end
                else fun s : view =>
                       (Ret tt,
                        {| session_state := session_state s;
                           page := page s
                             ++ [widget (St.metric (lit "Data Points")
                                   (St.Count (df_len data * length (columns data))))] |})) v1
               = (Ret tt, {| session_state := session_state v1; page := page v1 ++ [third] |}))
    as [third Hthird].
  { destruct (decide (lit "Age" ∈ columns data)) as [Hin|Hout].
    - destruct (column_found data _ Hin) as (ages & Hcol & _).
      destruct (Hmean ages Hcol) as [m Hm].
      eexists. intros v1. rewrite (bool_decide_eq_true_2 _ Hin), Hcol, Hm. reflexivity.
    - eexists. intros v1. rewrite (bool_decide_eq_false_2 _ Hout). reflexivity. }
  destruct (decide (lit "Status" ∈ columns data)) as [Hin|Hout].
  - destruct (column_found data _ Hin) as (status & Hcol & Hlen).
    rewrite (bool_decide_eq_true_2 _ Hin), Hcol. cbn [session_state page].
    rewrite Hthird. cbn [session_state page].
    eexists _, third. rewrite <- !app_assoc. cbn [app].
    split; [reflexivity|]. split; [|contradiction].
    intros status' Hstatus' _. congruence.
  - rewrite (bool_decide_eq_false_2 _ Hout). cbn [session_state page].
    rewrite Hthird. cbn [session_state page].
    eexists _, third. rewrite <- !app_assoc. cbn [app].
    split; [reflexivity|]. split; [intros; contradiction | reflexivity].
Qed.

Lemma column_length (data : DataFrame) (name : str) (values : list (option str)) :
  column data name = Ret values ->
  name ∈ columns data /\ length values = df_len data.
Proof.
  unfold column.
  destruct (list_find (fun c => c = name) (columns data)) as [[i c]|] eqn:Hfind;
    [|discriminate].
  intros Hvalues. injection Hvalues as <-. split.
  - apply list_find_Some in Hfind as (Hi & -> & _). eapply list_elem_of_lookup_2, Hi.
  - rewrite length_map. reflexivity.
Qed.

(** A bar chart is drawn exactly of the series that have a present cell. *)
Lemma px_bar_present (series : list (option str)) (present title x_label y_label : str) :
  Some present ∈ series ->
  px_bar_of_counts series title x_label y_label
  = Ret (bar_of_counts series title x_label y_label).
Proof.
  intros Hin. unfold px_bar_of_counts.
  destruct (forallb (fun cell => bool_decide (cell = None)) series) eqn:Hall; [|reflexivity].
  rewrite forallb_forall in Hall. apply list_elem_of_In, Hall in Hin.
  apply bool_decide_eq_true in Hin. discriminate.
Qed.

Lemma px_bar_absent (series : list (option str)) (title x_label y_label : str) :
  Forall (fun cell => cell = None) series ->
  px_bar_of_counts series title x_label y_label = Raise empty_bar_error.
Proof.
  intros Hall. unfold px_bar_of_counts.
  replace (forallb (fun cell => bool_decide (cell = None)) series) with true; [reflexivity|].
  symmetry. apply forallb_forall. intros cell Hin. apply bool_decide_eq_true.
  rewrite Forall_forall in Hall. apply Hall, list_elem_of_In, Hin.
Qed.

Lemma app_charts_run
    (data : DataFrame) (col : str) (values : list (option str)) (present : str) (v : view) :
  session_state v !! lit "data" = Some data ->
  column data col = Ret values ->
  Some present ∈ values ->
  (forall ages, column data (lit "Age") = Ret ages -> exists m, mean ages = Ret m) ->
  exists second third,
    app_charts_tab (Some col) v
    = (Ret tt,
       {| session_state := session_state v;
          page := page v
            ++ [ widget (St.write (lit "### 📈 Data Visualization"));
                 widget (St.write (lit "**Choose which column to visualize:**"));
                 plotly_chart (bar_of_counts values (lit "Count of " ++ col) col
                                 (lit "Number of People"));
                 widget (St.write (lit "**Quick Stats:**"));
                 widget (St.metric (lit "Total Records") (St.Count (df_len data)));
                 second; third ] |})
    /\ (forall status, column data (lit "Status") = Ret status ->
        lit "Status" ∈ columns data ->
        second = widget (St.metric (lit "Completed")
                   (St.Count (length (filter (fun cell => cell = Some (lit "Completed")) status))))).
Proof.
  intros Hdata Hvalues Hpresent Hmean.
  unfold app_charts_tab, bind, session_lookup, show, lift.
  cbn [session_state page]. rewrite Hdata, Hvalues.
  rewrite (px_bar_present values present _ _ _ Hpresent). cbn [session_state page].
  match goal with
  | |- context [quick_stats data ?v1] =>
      destruct (quick_stats_run data v1 Hmean) as (second & third & -> & Hyes & _)
  end.
  exists second, third. cbn [session_state page].
  rewrite <- !app_assoc. cbn [app]. auto.
Qed.

Lemma ai_charts_run
    (data : DataFrame) (col : str) (values : list (option str)) (present : str) (v : view) :
  session_state v !! lit "data" = Some data ->
  column data col = Ret values ->
  Some present ∈ values ->
  (forall ages, column data (lit "Age") = Ret ages -> exists m, mean ages = Ret m) ->
  exists second third before,
    ai_charts_tab (Some col) v
    = (Ret tt,
       {| session_state := session_state v;
          page := page v
            ++ [ widget (St.write (lit "### 📈 Data Visualizations"));
                 widget (St.success (lit "✅ Using data with " ++ str_of_nat (df_len data)
                                       ++ lit " participants"));
                 widget (St.write (lit "**Choose what you want to visualize:**")) ]
            ++ before
            ++ [ plotly_chart
                   (if decide (col = lit "Age") then
                      histogram data (lit "Age") (lit "Age Distribution of Participants")
                        [(lit "Age", lit "Age"); (lit "count", lit "Number of People")] 10
                    else
                      bar_of_counts values (lit "Count of " ++ col) col
                        (lit "Number of People"));
                 widget (St.write (lit "**Quick Stats:**"));
                 widget (St.metric (lit "Total Records") (St.Count (df_len data)));
                 second; third ] |})
    /\ (forall status, column data (lit "Status") = Ret status ->
        lit "Status" ∈ columns data ->
        second = widget (St.metric (lit "Completed")
                   (St.Count (length (filter (fun cell => cell = Some (lit "Completed")) status))))).
Proof.
  intros Hdata Hvalues Hpresent Hmean.
  destruct (column_length data col values Hvalues) as [Hcol _].
  unfold ai_charts_tab, bind, session_lookup, show, lift, ret.
  cbn [session_state page]. rewrite Hdata. cbn [session_state page].
  destruct (decide (col = lit "Age")) as [->|Hne].
  - rewrite (bool_decide_eq_true_2 (Some (lit "Age") = Some (lit "Age")) eq_refl).
    rewrite (bool_decide_eq_true_2 _ Hcol). cbn [andb session_state page].
    match goal with
    | |- context [quick_stats data ?v1] =>
        destruct (quick_stats_run data v1 Hmean) as (second & third & -> & Hyes & _)
    end.
    exists second, third,
      [widget (St.write (lit "📊 **Age Histogram** (shows age ranges, not individual ages)"))].
    cbn [session_state page]. rewrite <- !app_assoc. cbn [app]. auto.
  - rewrite (bool_decide_eq_false_2 (Some col = Some (lit "Age"))) by congruence.
    cbn [andb]. rewrite Hvalues.
    rewrite (px_bar_present values present _ _ _ Hpresent). cbn [session_state page].
    match goal with
    | |- context [quick_stats data ?v1] =>
        destruct (quick_stats_run data v1 Hmean) as (second & third & -> & Hyes & _)
    end.
    exists second, third, []. cbn [session_state page].
    rewrite <- !app_assoc. cbn [app]. auto.
Qed.

(** X22: nothing catches a failing mean.  With a frame stored, a column
    selected that has at least one present cell (so that its bar chart is
    drawn) and an ['Age'] column whose mean raises, both charts tabs end
    with the exception of the mean. *)
Theorem failing_mean_ends_the_tab
    (data : DataFrame) (col : str) (values ages : list (option str)) (present : str)
    (e : exception) (v : view) :
  session_state v !! lit "data" = Some data ->
  column data col = Ret values ->
  Some present ∈ values ->
  column data (lit "Age") = Ret ages ->
  mean ages = Raise e ->
  fst (app_charts_tab (Some col) v) = Raise e
  /\ fst (ai_charts_tab (Some col) v) = Raise e.
Proof.
  intros Hdata Hvalues Hpresent Hages Hmean.
  destruct (column_length data _ ages Hages) as [Hage _].
  assert (forall v1 : view, fst (quick_stats data v1) = Raise e) as Hstats.
  { intros v1. unfold quick_stats, bind, show, lift. cbn [session_state page].
    rewrite (bool_decide_eq_true_2 _ Hage), Hages, Hmean.
    destruct (decide (lit "Status" ∈ columns data)) as [Hin|Hout].
    - destruct (column_found data _ Hin) as (status & Hcolumn & _).
      rewrite (bool_decide_eq_true_2 _ Hin), Hcolumn. reflexivity.
    - rewrite (bool_decide_eq_false_2 _ Hout). reflexivity. }
  split.
  - unfold app_charts_tab, bind, session_lookup, show, lift.
    cbn [session_state page]. rewrite Hdata, Hvalues.
    rewrite (px_bar_present values present _ _ _ Hpresent). cbn [session_state page].
    match goal with
    | |- context [quick_stats data ?v1] =>
        specialize (Hstats v1); destruct (quick_stats data v1) as [r v2]
    end.
    cbn [fst] in Hstats. subst r. reflexivity.
  - unfold ai_charts_tab, bind, session_lookup, show, lift, ret.
    cbn [session_state page]. rewrite Hdata. cbn [session_state page].
    destruct (bool_decide (Some col = Some (lit "Age")) && bool_decide (lit "Age" ∈ columns data));
      try (rewrite Hvalues, (px_bar_present values present _ _ _ Hpresent));
      cbn [session_state page];
      match goal with
      | |- context [quick_stats data ?v1] =>
          specialize (Hstats v1); destruct (quick_stats data v1) as [r v2]
      end;
      cbn [fst] in Hstats; subst r; reflexivity.
Qed.

(** X23: a column without a single present cell cannot be charted.  With a
    frame stored (one without rows, for instance) and such a column
    selected, [px.bar] raises and nothing catches it: the charts tab of
    [app.py] ends with plotly's error, and so does the one of [AI_app.py]
    unless the column is ['Age'], which gets a histogram instead.  No metric
    is shown. *)
Theorem empty_column_ends_the_tab
    (data : DataFrame) (col : str) (values : list (option str)) (v : view) :
  session_state v !! lit "data" = Some data ->
  column data col = Ret values ->
  Forall (fun cell => cell = None) values ->
  app_charts_tab (Some col) v
  = (Raise empty_bar_error,
     {| session_state := session_state v;
        page := (page v ++ [widget (St.write (lit "### 📈 Data Visualization"))])
          ++ [widget (St.write (lit "**Choose which column to visualize:**"))] |})
  /\ (col <> lit "Age" ->
      ai_charts_tab (Some col) v
      = (Raise empty_bar_error,
         {| session_state := session_state v;
            page := ((page v ++ [widget (St.write (lit "### 📈 Data Visualizations"))])
              ++ [widget (St.success (lit "✅ Using data with " ++ str_of_nat (df_len data)
                                        ++ lit " participants"))])
              ++ [widget (St.write (lit "**Choose what you want to visualize:**"))] |})).
Proof.
  intros Hdata Hvalues Hnone. split.
  - unfold app_charts_tab, bind, session_lookup, show, lift.
    cbn [session_state page]. rewrite Hdata, Hvalues.
    rewrite (px_bar_absent values _ _ _ Hnone). reflexivity.
  - intros Hne.
    unfold ai_charts_tab, bind, session_lookup, show, lift, ret.
    cbn [session_state page]. rewrite Hdata. cbn [session_state page].
    rewrite (bool_decide_eq_false_2 (Some col = Some (lit "Age"))) by congruence.
    cbn [andb]. rewrite Hvalues, (px_bar_absent values _ _ _ Hnone). reflexivity.
Qed.

(** X19: with a frame stored, a column selected that has at least one
    present cell, and the mean of the ['Age'] column, if there is one, not
    raising, the charts tabs finish.  They chart the cells of the selected
    column ([AI_app.py] a histogram of the frame instead when the column is
    ['Age']), report the number of rows as total records, and, when there is
    a ['Status'] column, a number of completed records that never exceeds
    that total. *)
Theorem charts_show_the_stored_frame
    (data : DataFrame) (col : str) (values : list (option str)) (present : str) (v : view) :
  session_state v !! lit "data" = Some data ->
  column data col = Ret values ->
  Some present ∈ values ->
  (forall ages, column data (lit "Age") = Ret ages -> exists m, mean ages = Ret m) ->
  length values = df_len data
  /\ fst (app_charts_tab (Some col) v) = Ret tt
  /\ plotly_chart (bar_of_counts values (lit "Count of " ++ col) col (lit "Number of People"))
       ∈ page (snd (app_charts_tab (Some col) v))
  /\ widget (St.metric (lit "Total Records") (St.Count (df_len data)))
       ∈ page (snd (app_charts_tab (Some col) v))
  /\ fst (ai_charts_tab (Some col) v) = Ret tt
  /\ plotly_chart
       (if decide (col = lit "Age") then
          histogram data (lit "Age") (lit "Age Distribution of Participants")
            [(lit "Age", lit "Age"); (lit "count", lit "Number of People")] 10
        else bar_of_counts values (lit "Count of " ++ col) col (lit "Number of People"))
       ∈ page (snd (ai_charts_tab (Some col) v))
  /\ widget (St.metric (lit "Total Records") (St.Count (df_len data)))
       ∈ page (snd (ai_charts_tab (Some col) v))
  /\ (lit "Status" ∈ columns data ->
      exists status completed,
        column data (lit "Status") = Ret status
        /\ completed = length (filter (fun cell => cell = Some (lit "Completed")) status)
        /\ (completed <= df_len data)%nat
        /\ widget (St.metric (lit "Completed") (St.Count completed))
             ∈ page (snd (app_charts_tab (Some col) v))
        /\ widget (St.metric (lit "Completed") (St.Count completed))
             ∈ page (snd (ai_charts_tab (Some col) v))).
Proof.
  intros Hdata Hvalues Hpresent Hmean.
  destruct (column_length data col values Hvalues) as [_ Hlen].
  destruct (app_charts_run data col values present v Hdata Hvalues Hpresent Hmean)
    as (second1 & third1 & -> & Hs1).
  destruct (ai_charts_run data col values present v Hdata Hvalues Hpresent Hmean)
    as (second2 & third2 & before & -> & Hs2).
  cbn [fst snd page].
  repeat split; try assumption;
    try (rewrite !elem_of_app, !elem_of_cons; tauto).
  intros Hstatus.
  destruct (column_found data _ Hstatus) as (status & Hst & Hstlen).
  rewrite (Hs1 status Hst Hstatus), (Hs2 status Hst Hstatus).
  exists status, (length (filter (fun cell => cell = Some (lit "Completed")) status)).
  split; [exact Hst|]. split; [reflexivity|]. split.
  - rewrite <- Hstlen. apply (length_filter (fun cell => cell = Some (lit "Completed"))).
  - split; rewrite !elem_of_app, !elem_of_cons; tauto.
Qed.

End ChartsTabs.

(** ** From the data tab to the charts tab *)

Section UploadThenCharts.
Import Charts.
Context `{Pandas} `{Stats} `{Plotly}.

Lemma upload_tab_stores (file : UploadedFile) (s : St.script) :
  St.session_state (snd (App.upload_tab (Some file) s))
  = match read_csv file with
    | Ret data => <[lit "data" := data]> (St.session_state s)
    | Raise _ => St.session_state s
    end.
Proof.
  unfold App.upload_tab, try_except, bind, St.lift.
  destruct (read_csv file); reflexivity.
Qed.

(** X20: an upload that parses is charted in the same run.  When the
    selected column of the parsed file has at least one present cell and the
    mean of its ['Age'] column, if there is one, does not raise, the charts
    tab that follows the data tab (in [AI_app.py] with the sample-data
    button left alone) finishes in both dashboards, and its total of records
    is the number of rows of the file just parsed, whatever the session held
    before. *)
Theorem upload_then_charts
    (file : UploadedFile) (data : DataFrame) (col : str) (values : list (option str))
    (present : str) (s : St.script) :
  read_csv file = Ret data ->
  column data col = Ret values ->
  Some present ∈ values ->
  (forall ages, column data (lit "Age") = Ret ages -> exists m, mean ages = Ret m) ->
  fst (app_charts_tab (Some col) (of_script (snd (App.upload_tab (Some file) s)))) = Ret tt
  /\ widget (St.metric (lit "Total Records") (St.Count (df_len data)))
       ∈ page (snd (app_charts_tab (Some col) (of_script (snd (App.upload_tab (Some file) s)))))
  /\ fst (ai_charts_tab (Some col) (of_script (snd (AIApp.data_tab (Some file) false s))))
     = Ret tt
  /\ widget (St.metric (lit "Total Records") (St.Count (df_len data)))
       ∈ page (snd (ai_charts_tab (Some col)
                      (of_script (snd (AIApp.data_tab (Some file) false s))))).
Proof.
  intros Hparse Hvalues Hpresent Hmean.
  assert (session_state (of_script (snd (App.upload_tab (Some file) s))) !! lit "data"
          = Some data) as Happ.
  { unfold of_script. cbn [session_state].
    rewrite upload_tab_stores, Hparse. apply lookup_insert_eq. }
  assert (session_state (of_script (snd (AIApp.data_tab (Some file) false s))) !! lit "data"
          = Some data) as Hai.
  { unfold of_script. cbn [session_state].
    destruct (data_tab_run (Some file) false s) as (_ & -> & _). rewrite Hparse. reflexivity. }
  destruct (app_charts_run data col values present _ Happ Hvalues Hpresent Hmean)
    as (s1 & t1 & -> & _).
  destruct (ai_charts_run data col values present _ Hai Hvalues Hpresent Hmean)
    as (s2 & t2 & b2 & -> & _).
  cbn [fst snd page].
  repeat split; rewrite !elem_of_app, !elem_of_cons; tauto.
Qed.

(** X21: an upload that fails on a session without data leaves the charts
    tab where it was.  In [app.py] the run shows the error of the upload and
    then the invitation to upload; in [AI_app.py] (sample-data button left
    alone) the charts tab finishes and the only figure on the page is the
    sample chart: nothing of a half-read file is charted. *)
Theorem failed_upload_then_charts
    (file : UploadedFile) (e : exception) (selection : option str) (s : St.script) :
  read_csv file = Raise e ->
  St.session_state s !! lit "data" = None ->
  app_charts_tab selection (of_script (snd (App.upload_tab (Some file) s)))
  = (Ret tt,
     {| session_state := St.session_state s;
        page := map widget (St.page s)
          ++ [ widget (St.error (lit "Oops! There was a problem reading your file: " ++ exc_text e));
               widget (St.write (lit "### 📈 Data Visualization"));
               widget (St.info (lit "📤 Please upload data in the 'Data Upload' tab first!")) ] |})
  /\ fst (ai_charts_tab selection (of_script (snd (AIApp.data_tab (Some file) false s))))
     = Ret tt
  /\ (forall fig,
        plotly_chart fig
          ∈ page (snd (ai_charts_tab selection
                         (of_script (snd (AIApp.data_tab (Some file) false s))))) ->
        fig = bar_of_frame sample_chart_data (lit "Program") (lit "Participants")
                (lit "Sample: Participants by Program")).
Proof.
  intros Hparse Hnone. split.
  - unfold App.upload_tab, try_except, bind, St.lift, St.show. rewrite Hparse.
    cbn [snd St.session_state St.page]. unfold of_script. cbn [St.session_state St.page].
    unfold app_charts_tab, bind, session_lookup, show. cbn [session_state page].
    rewrite Hnone, map_app. cbn [map session_state page].
    rewrite <- !app_assoc. reflexivity.
  - assert (session_state (of_script (snd (AIApp.data_tab (Some file) false s))) !! lit "data"
            = None) as Hai.
    { unfold of_script. cbn [session_state].
      destruct (data_tab_run (Some file) false s) as (_ & -> & _).
      rewrite Hparse. exact Hnone. }
    set (v := of_script (snd (AIApp.data_tab (Some file) false s))) in *.
    assert (forall fig, plotly_chart fig ∉ page v) as Hplain.
    { intros fig Hin. subst v. unfold of_script in Hin. cbn [page] in Hin.
      apply list_elem_of_fmap in Hin as (w & Hw & _). discriminate. }
    clearbody v.
    unfold ai_charts_tab, bind, session_lookup, show. cbn [session_state page].
    rewrite Hai. cbn [fst snd session_state page]. split; [reflexivity|].
    intros fig. rewrite !elem_of_app, !elem_of_cons, !elem_of_nil.
    intros Hin.
    repeat match goal with
           | Hor : _ \/ _ |- _ => destruct Hor as [Hor|Hor]
           end;
      first [ exfalso; exact (Hplain fig Hin) | discriminate Hin | contradiction | congruence ].
Qed.

End UploadThenCharts.

(** ** The further theorems at work *)

Section MoreWitnesses.
Import Fixtures.
#[local] Existing Instance ascii_only.

Lemma keyword_in_any_case_matches_witness :
  contains_nocase (lit "email") (lit "What is your E-mail? EMAIL me") = true
  /\ AIApp.get_chatbot_answer (with_model raising) (lit "What is your E-mail? EMAIL me")
       (fresh 0%nat)
     = (Ret AIApp.contact_template, fresh 0%nat).
Proof.
  assert (contains_nocase (lit "email") (lit "What is your E-mail? EMAIL me") = true)
    as Hq by (vm_compute; reflexivity).
  split; [exact Hq|].
  destruct (keyword_in_any_case_matches (with_model raising)
              (lit "What is your E-mail? EMAIL me") (lit "email") (fresh 0%nat))
    as (_ & Hrun & _).
  - unfold AIApp.keyword_table. cbn [map snd concat app].
    do 8 apply list_elem_of_further. apply list_elem_of_here.
  - exact Hq.
  - rewrite Hrun. vm_compute. reflexivity.
Defined.

Lemma generated_text_is_stripped_witness :
  fst (AIApp.generate_ai_response (with_model (continuing (lit " We care. ")))
         (lit "Hello, how are you?") (fresh 0%nat))
  = Ret (Some (lit "We care."))
  /\ strip (lit "We care.") = lit "We care.".
Proof.
  split; [vm_compute; reflexivity|].
  apply (generated_text_is_stripped (with_model (continuing (lit " We care. ")))
           (lit "Hello, how are you?") (fresh 0%nat)
           (snd (AIApp.generate_ai_response (with_model (continuing (lit " We care. ")))
                   (lit "Hello, how are you?") (fresh 0%nat)))).
  vm_compute. reflexivity.
Defined.

Lemma generated_reply_is_shown_witness :
  first_match AIApp.keyword_table (lower (lit "Hello, how are you?")) = Unmatched
  /\ lit "We care." <> []
  /\ fst (AIApp.get_chatbot_answer (with_model (continuing (lit " We care. ")))
            (lit "Hello, how are you?") (fresh 0%nat))
     = Ret (AIApp.ai_reply (lit "We care.")).
Proof.
  assert (lit "We care." <> []) as Hne by (vm_compute; discriminate).
  split; [vm_compute; reflexivity|]. split; [exact Hne|].
  rewrite (generated_reply_is_shown (with_model (continuing (lit " We care. ")))
             (lit "Hello, how are you?") (fresh 0%nat)
             (snd (AIApp.generate_ai_response (with_model (continuing (lit " We care. ")))
                     (lit "Hello, how are you?") (fresh 0%nat)))
             (lit "We care.")).
  - reflexivity.
  - vm_compute. reflexivity.
  - vm_compute. reflexivity.
  - exact Hne.
Defined.

Lemma empty_file_is_stored_witness :
  df_len {| columns := [lit "Name"]; rows := [] |} = 0%nat
  /\ St.session_state
       (snd (@AIApp.upload_handler header_only (Some {| content := []; size := 0 |}) blank_page))
     !! lit "data"
     = Some {| columns := [lit "Name"]; rows := [] |}.
Proof.
  split; [reflexivity|].
  destruct (@empty_file_is_stored header_only {| content := []; size := 0 |}
              {| columns := [lit "Name"]; rows := [] |} blank_page)
    as [rest ->]; [reflexivity | reflexivity |].
  apply lookup_insert_eq.
Defined.

Lemma loaded_tokenizer_is_padded_witness :
  (exists loaded s',
      @AIApp.load_ai_model nat local_hub true blank_page = (Ret (Some loaded), s')
      /\ AIApp.pad_token (AIApp.loaded_tokenizer loaded) = Some (lit "<|endoftext|>")).
Proof.
  eexists _, _. split; [reflexivity|].
  destruct (@loaded_tokenizer_is_padded nat local_hub true blank_page _ _ eq_refl)
    as (tok & Htok & _ & Hpad & _).
  rewrite Hpad. injection Htok as <-. reflexivity.
Defined.

Lemma failed_load_is_rule_based_witness :
  @AIApp.module_globals nat offline_hub true blank_page
  = (Ret {| AIApp.HF_AVAILABLE := true; AIApp.ai_model := None |},
     {| St.session_state := ∅;
        St.page := [St.error (lit "Error loading AI model: " ++ lit "Connection error")] |})
  /\ snd (AIApp.get_chatbot_answer {| AIApp.HF_AVAILABLE := true; AIApp.ai_model := None |}
            (lit "Hello, how are you?") (fresh 0%nat))
     = fresh 0%nat.
Proof.
  assert (@AIApp.module_globals nat offline_hub true blank_page
          = (Ret {| AIApp.HF_AVAILABLE := true; AIApp.ai_model := None |},
             {| St.session_state := ∅;
                St.page := [St.error (lit "Error loading AI model: " ++ lit "Connection error")] |}))
    as Hrun by reflexivity.
  split; [exact Hrun|].
  destruct (@failed_load_is_rule_based nat offline_hub _ true blank_page _ _ Hrun)
    as (_ & _ & Hrules).
  apply (Hrules eq_refl).
Defined.


Lemma charts_without_data_witness :
  fst (@Charts.app_charts_tab no_stats plotly None (Charts.of_script blank_page)) = Ret tt
  /\ fst (@Charts.ai_charts_tab no_stats plotly None (Charts.of_script blank_page)) = Ret tt.
Proof.
  destruct (@charts_without_data no_stats plotly None (Charts.of_script blank_page))
    as [-> ->]; [apply lookup_empty|]. split; reflexivity.
Defined.

Lemma charts_show_the_stored_frame_witness :
  Charts.column participants (lit "Status") = Ret [Some (lit "Completed"); Some (lit "Active")]
  /\ Charts.column participants (lit "Age") = Ret [Some (lit "34"); None]
  /\ @Charts.mean whole_numbers [Some (lit "34"); None] = Ret (34, 1)%nat
  /\ fst (@Charts.app_charts_tab whole_numbers plotly (Some (lit "Status")) (holding participants))
     = Ret tt
  /\ Charts.widget (St.metric (lit "Completed") (St.Count 1))
       ∈ Charts.page
           (snd (@Charts.ai_charts_tab whole_numbers plotly (Some (lit "Status"))
                   (holding participants))).
Proof.
  assert (Charts.column participants (lit "Status")
          = Ret [Some (lit "Completed"); Some (lit "Active")]) as Hstatus
      by (vm_compute; reflexivity).
  assert (Charts.column participants (lit "Age") = Ret [Some (lit "34"); None]) as Hages
      by (vm_compute; reflexivity).
  assert (@Charts.mean whole_numbers [Some (lit "34"); None] = Ret (34, 1)%nat) as Hmean
      by (vm_compute; reflexivity).
  split; [exact Hstatus|]. split; [exact Hages|]. split; [exact Hmean|].
  destruct (@charts_show_the_stored_frame whole_numbers plotly participants (lit "Status")
              [Some (lit "Completed"); Some (lit "Active")] (lit "Completed")
              (holding participants))
    as (_ & Happ & _ & _ & _ & _ & _ & Hcompleted).
  - apply lookup_singleton_eq.
  - exact Hstatus.
  - apply list_elem_of_here.
  - intros ages Hages'. rewrite Hages in Hages'. injection Hages' as <-. eauto.
  - split; [exact Happ|].
    destruct Hcompleted as (status & completed & Hst & -> & _ & _ & Hai).
    { do 2 apply list_elem_of_further. apply list_elem_of_here. }
    rewrite Hstatus in Hst. injection Hst as <-. exact Hai.
Defined.

Lemma failing_mean_ends_the_tab_witness :
  Charts.column ages_in_words (lit "Age") = Ret [Some (lit "thirty")]
  /\ @Charts.mean whole_numbers [Some (lit "thirty")]
     = Raise (Exception (lit "Could not convert to numeric"))
  /\ fst (@Charts.app_charts_tab whole_numbers plotly (Some (lit "Name")) (holding ages_in_words))
     = Raise (Exception (lit "Could not convert to numeric")).
Proof.
  assert (Charts.column ages_in_words (lit "Age") = Ret [Some (lit "thirty")]) as Hages
      by (vm_compute; reflexivity).
  assert (@Charts.mean whole_numbers [Some (lit "thirty")]
          = Raise (Exception (lit "Could not convert to numeric"))) as Hmean
      by (vm_compute; reflexivity).
  split; [exact Hages|]. split; [exact Hmean|].
  destruct (@failing_mean_ends_the_tab whole_numbers plotly ages_in_words (lit "Name")
              [Some (lit "Ann")] [Some (lit "thirty")] (lit "Ann")
              (Exception (lit "Could not convert to numeric")) (holding ages_in_words))
    as [Happ _].
  - apply lookup_singleton_eq.
  - vm_compute. reflexivity.
  - apply list_elem_of_here.
  - exact Hages.
  - exact Hmean.
  - exact Happ.
Defined.

Lemma empty_column_ends_the_tab_witness :
  Charts.column {| columns := [lit "Name"]; rows := [] |} (lit "Name") = Ret []
  /\ fst (@Charts.app_charts_tab whole_numbers plotly (Some (lit "Name"))
            (holding {| columns := [lit "Name"]; rows := [] |}))
     = Raise (@Charts.empty_bar_error plotly)
  /\ fst (@Charts.ai_charts_tab whole_numbers plotly (Some (lit "Name"))
            (holding {| columns := [lit "Name"]; rows := [] |}))
     = Raise (@Charts.empty_bar_error plotly).
Proof.
  assert (Charts.column {| columns := [lit "Name"]; rows := [] |} (lit "Name") = Ret [])
    as Hcolumn by (vm_compute; reflexivity).
  split; [exact Hcolumn|].
  destruct (@empty_column_ends_the_tab whole_numbers plotly
              {| columns := [lit "Name"]; rows := [] |} (lit "Name") []
              (holding {| columns := [lit "Name"]; rows := [] |}))
    as [Happ Hai].
  - apply lookup_singleton_eq.
  - exact Hcolumn.
  - constructor.
  - split; [rewrite Happ; reflexivity|].
    rewrite Hai; [reflexivity|]. intros Heq. vm_compute in Heq. discriminate.
Defined.

Lemma upload_then_charts_witness :
  Charts.column participants (lit "Status") = Ret [Some (lit "Completed"); Some (lit "Active")]
  /\ Charts.widget (St.metric (lit "Total Records") (St.Count 2))
       ∈ Charts.page
           (snd (@Charts.ai_charts_tab whole_numbers plotly (Some (lit "Status"))
                   (Charts.of_script
                      (snd (@AIApp.data_tab participants_csv
                              (Some {| content := []; size := 0 |}) false blank_page))))).
Proof.
  assert (Charts.column participants (lit "Status")
          = Ret [Some (lit "Completed"); Some (lit "Active")]) as Hstatus
      by (vm_compute; reflexivity).
  split; [exact Hstatus|].
  destruct (@upload_then_charts participants_csv whole_numbers plotly
              {| content := []; size := 0 |} participants (lit "Status")
              [Some (lit "Completed"); Some (lit "Active")] (lit "Completed") blank_page)
    as (_ & _ & _ & Hai).
  - reflexivity.
  - exact Hstatus.
  - apply list_elem_of_here.
  - intros ages Hages. vm_compute in Hages. injection Hages as <-.
    exists (34, 1)%nat. vm_compute. reflexivity.
  - exact Hai.
Defined.

Lemma failed_upload_then_charts_witness :
  St.session_state blank_page !! lit "data" = None
  /\ fst (@Charts.ai_charts_tab no_stats plotly None
            (Charts.of_script
               (snd (@AIApp.data_tab no_pandas
                       (Some {| content := []; size := 0 |}) false blank_page))))
     = Ret tt.
Proof.
  assert (St.session_state blank_page !! lit "data" = None) as Hnone by apply lookup_empty.
  split; [exact Hnone|].
  destruct (@failed_upload_then_charts no_pandas no_stats plotly
              {| content := []; size := 0 |}
              (Exception (lit "No columns to parse from file")) None blank_page)
    as (_ & Hai & _).
  - reflexivity.
  - exact Hnone.
  - exact Hai.
Defined.

End MoreWitnesses.
